(** * GleSYS cloud server module: a shallow embedding of
    [plugins/modules/server.py] and the properties of its reconciliation
    engine.

    The Python classes [AnsibleGlesysServer], [GlesysApi] and [GlesysRunner]
    become modules of the same names.  Remote calls, [time.sleep],
    [os.urandom] and [print] are effects: they are threaded through an
    explicit state that holds the provider, the entropy source and a
    chronological log of every effect.  [module.exit_json],
    [module.fail_json] and uncaught Python exceptions end the computation
    and are the non-[Ret] outcomes of the monad. *)

From Stdlib Require Import ZArith List String Ascii Bool Lia.
Import ListNotations.

Open Scope string_scope.
Open Scope Z_scope.

(** ** Python values that travel in the parameter dictionaries *)

Inductive pyval : Type :=
| PNone
| PInt (n : Z)
| PStr (s : string).

(** Python truthiness, as used by [if v]. *)
Definition truthy (v : pyval) : bool :=
  match v with
  | PNone => false
  | PInt n => negb (n =? 0)
  | PStr s => negb (s =? "")%string
  end.

(** Python [==] on these values. *)
Definition pyval_eqb (a b : pyval) : bool :=
  match a, b with
  | PNone, PNone => true
  | PInt x, PInt y => x =? y
  | PStr x, PStr y => (x =? y)%string
  | _, _ => false
  end.

Definition of_int (o : option Z) : pyval :=
  match o with Some n => PInt n | None => PNone end.

Definition of_str (o : option string) : pyval :=
  match o with Some s => PStr s | None => PNone end.

(** The keys of the dictionary handed to [server/edit]. *)
Inductive field : Type :=
| Cpucores | Disksize | Memorysize | Bandwidth | Hostname | Serverid.

Definition field_eqb (a b : field) : bool :=
  match a, b with
  | Cpucores, Cpucores | Disksize, Disksize | Memorysize, Memorysize
  | Bandwidth, Bandwidth | Hostname, Hostname | Serverid, Serverid => true
  | _, _ => false
  end.

Definition field_name (f : field) : string :=
  match f with
  | Cpucores => "cpucores" | Disksize => "disksize"
  | Memorysize => "memorysize" | Bandwidth => "bandwidth"
  | Hostname => "hostname" | Serverid => "serverid"
  end.

(** A Python dict, in insertion order. *)
Definition dict : Type := list (field * pyval).

(** [d[k] = v]: an existing key keeps its place, a new one goes last. *)
Fixpoint dict_set (d : dict) (k : field) (v : pyval) : dict :=
  match d with
  | [] => [(k, v)]
  | (k', v') :: rest =>
      if field_eqb k' k then (k, v) :: rest
      else (k', v') :: dict_set rest k v
  end.

(** ** The provider's records *)

(** One element of [properties["iplist"]]. *)
Record ip_entry : Type := {
  ip_version : Z;
  ip_address : string
}.

(** The JSON object under [response.server]. *)
Record snapshot : Type := {
  sv_serverid : string;
  sv_hostname : string;
  sv_cpucores : Z;
  sv_disksize : Z;
  sv_memorysize : Z;
  sv_bandwidth : Z;
  sv_state : string;
  sv_editbandwidth : string;   (* supportedfeatures.editbandwidth *)
  sv_iplist : list ip_entry
}.

(** [snapshot[k]] for the keys of an edit dictionary. *)
Definition snapshot_get (s : snapshot) (k : field) : pyval :=
  match k with
  | Cpucores => PInt (sv_cpucores s)
  | Disksize => PInt (sv_disksize s)
  | Memorysize => PInt (sv_memorysize s)
  | Bandwidth => PInt (sv_bandwidth s)
  | Hostname => PStr (sv_hostname s)
  | Serverid => PStr (sv_serverid s)
  end.

(** The dictionary posted to [server/create]. *)
Record create_params : Type := {
  cp_hostname : option string;
  cp_platform : option string;
  cp_datacenter : option string;
  cp_templatename : option string;
  cp_disksize : option Z;
  cp_memorysize : option Z;
  cp_cpucores : option Z;
  cp_bandwidth : option Z;
  cp_rootpassword : string;
  cp_description : option string;
  cp_users : option string;
  cp_ssh_pub_key : option string
}.

(** ** The Ansible module object *)

Record params : Type := {
  p_serverid : option string;
  p_hostname : option string;
  p_cpus : option Z;
  p_memory : option Z;
  p_disk : option Z;
  p_bandwidth : option Z;
  p_password : string;
  p_ssh_pub_key : option string;
  p_datacenter : option string;
  p_template : option string;
  p_platform : option string;
  p_state : string;
  p_users : option string;
  p_description : option string;
  p_wait : bool;
  p_wait_timeout : Z
}.

Record module : Type := {
  m_params : params;
  check_mode : bool
}.

Definition with_check_mode (b : bool) (m : module) : module :=
  {| m_params := m_params m; check_mode := b |}.

(** ** Effects *)

Inductive reply (A : Type) : Type :=
| Ok (a : A)
| HttpError (text : string).   (* status >= 400, response.status.text *)
Arguments Ok {A} a.
Arguments HttpError {A} text.

(** What the remote control plane answers; [W] is whatever it remembers. *)
Record Provider (W : Type) : Type := {
  srv_list : W -> reply (list snapshot) * W;
  srv_details : string -> W -> reply snapshot * W;
  srv_status : string -> W -> reply string * W;
  srv_create : create_params -> W -> reply snapshot * W;
  srv_edit : dict -> W -> reply snapshot * W;
  srv_destroy : string -> W -> reply unit * W;
  elapse : Z -> W -> W
}.
Arguments srv_list {W} _ _.
Arguments srv_details {W} _ _ _.
Arguments srv_status {W} _ _ _.
Arguments srv_create {W} _ _ _.
Arguments srv_edit {W} _ _ _.
Arguments srv_destroy {W} _ _ _.
Arguments elapse {W} _ _ _.

Inductive event : Type :=
| EvList
| EvDetails (serverid : string)
| EvStatus (serverid : string) (answer : reply string)
| EvCreate (p : create_params)
| EvEdit (d : dict)
| EvDestroy (serverid : string) (keepip : string)
| EvSleep (seconds : Z)
| EvPrint (line : string)
| EvUrandom (n : nat).

Inductive pyexn : Type :=
| ValueError (text : string)
| AttributeError (text : string)
| NameError (text : string).

(** [AnsibleGlesysServer]: the properties bag; [ipaddress] is the key that
    [run] adds on top of what the provider sent. *)
Record server : Type := {
  properties : snapshot;
  ipaddress : option string
}.

(** Keyword arguments of [module.exit_json]. *)
Record result : Type := {
  changed : bool;
  res_server : option server;
  res_msg : option string
}.

Inductive outcome (A : Type) : Type :=
| Ret (a : A)
| Exit (r : result)          (* module.exit_json *)
| Fail (text : string)       (* module.fail_json *)
| Raise (e : pyexn)          (* uncaught exception *)
| OutOfFuel.                 (* the loop bound of the model was reached *)
Arguments Ret {A} a.
Arguments Exit {A} r.
Arguments Fail {A} text.
Arguments Raise {A} e.
Arguments OutOfFuel {A}.

Section Effects.
Context {W : Type}.

Record st : Type := {
  cloud : W;
  seed : nat -> Z;       (* the bytes os.urandom will hand out *)
  cursor : nat;          (* how many of them were consumed *)
  log : list event
}.

Definition M (A : Type) : Type := st -> outcome A * st.

Definition ret {A} (a : A) : M A := fun s => (Ret a, s).

Definition bind {A B} (c : M A) (k : A -> M B) : M B :=
  fun s =>
    match c s with
    | (Ret a, s') => k a s'
    | (Exit r, s') => (Exit r, s')
    | (Fail t, s') => (Fail t, s')
    | (Raise e, s') => (Raise e, s')
    | (OutOfFuel, s') => (OutOfFuel, s')
    end.

Definition exit_json {A} (r : result) : M A := fun s => (Exit r, s).
Definition raise {A} (e : pyexn) : M A := fun s => (Raise e, s).
Definition out_of_fuel {A} : M A := fun s => (OutOfFuel, s).

Definition record (e : event) (s : st) : st :=
  {| cloud := cloud s; seed := seed s; cursor := cursor s;
     log := log s ++ [e] |}.

Definition with_cloud (w : W) (s : st) : st :=
  {| cloud := w; seed := seed s; cursor := cursor s; log := log s |}.

Definition emit (e : event) : M unit := fun s => (Ret tt, record e s).

(** One round trip: [fetch_url] followed by [parse_response]. *)
Definition request {A} (e : reply A -> event) (f : W -> reply A * W)
  : M A :=
  fun s =>
    let (r, w) := f (cloud s) in
    let s' := record (e r) (with_cloud w s) in
    match r with
    | Ok a => (Ret a, s')
    | HttpError t => (Fail t, s')
    end.

(** [os.urandom(n)]: the next [n] bytes of the entropy source. *)
Definition urandom (n : nat) : M (list Z) :=
  fun s =>
    (Ret (map (fun i => seed s (cursor s + i)%nat mod 256) (seq 0 n)),
     record (EvUrandom n)
       {| cloud := cloud s; seed := seed s; cursor := (cursor s + n)%nat;
          log := log s |}).
End Effects.
Arguments st W : clear implicits.
Arguments M W A : clear implicits.

Declare Scope py_scope.
Delimit Scope py_scope with py.
Notation "x <- c ;; k" := (bind c (fun x => k))
  (at level 61, c at next level, right associativity) : py_scope.
Notation "' p <- c ;; k" := (bind c (fun x => match x with p => k end))
  (at level 61, p pattern, c at next level, right associativity) : py_scope.
Notation "c ;; k" := (bind c (fun _ => k))
  (at level 61, right associativity) : py_scope.
Open Scope py_scope.

(** ** [generate_temp_password] *)

Definition chars : string := "ABCDEFGHJKLMNPQRSTUVWXYZ23456789".

(** [chars[i]] for an index inside the string. *)
Definition char_at (i : Z) : ascii :=
  nth (Z.to_nat i) (list_ascii_of_string chars) "000"%char.

Definition generate_temp_password {W} (length : Z) : M W string :=
  if length <? 8
  then raise (ValueError "temp password must have positive length")
  else
    bytes <- urandom (Z.to_nat length) ;;
    ret (string_of_list_ascii
           (map (fun c => char_at (c mod Z.of_nat (String.length chars)))
                bytes)).

(** ** class AnsibleGlesysServer *)

Module AnsibleGlesysServer.
Section Methods.
Context {W : Type} (api : Provider W).

(** [AnsibleGlesysServer(json, api)] *)
Definition init (json : snapshot) : server :=
  {| properties := json; ipaddress := None |}.

Definition to_json (s : server) : server := s.
Definition serverid (s : server) : string := sv_serverid (properties s).
Definition hostname (s : server) : string := sv_hostname (properties s).
Definition state (s : server) : string := sv_state (properties s).

(** [update]: fetch the details and merge them into the properties. *)
Definition update (s : server) : M W server :=
  details <- request (fun _ => EvDetails (serverid s))
                     (srv_details api (serverid s)) ;;
  ret {| properties := details; ipaddress := ipaddress s |}.
End Methods.
End AnsibleGlesysServer.

(** ** class GlesysApi

    [stop_server], [start_server], [reboot_server] and [set_power_state]
    are not reached from [run], whose only call of [set_power_state] is
    commented out; they are modelled apart, in [Power].  [query] and
    [parse_response] are modelled in [Wire]. *)

Module GlesysApi.
Section Methods.
Context {W : Type} (api : Provider W).

Definition list_server : M W (list server) :=
  data <- request (fun _ => EvList) (srv_list api) ;;
  ret (map AnsibleGlesysServer.init data).

(** [not serverid and not hostname] *)
Definition neither (serverid hostname : option string) : bool :=
  negb (truthy (of_str serverid)) && negb (truthy (of_str hostname)).

Definition find (serverid hostname : option string)
  : M W (option server) :=
  if neither serverid hostname then ret None
  else
    servers <- list_server ;;
    match List.find
            (fun s => pyval_eqb (PStr (AnsibleGlesysServer.serverid s))
                                (of_str serverid)) servers with
    | Some s => ret (Some s)
    | None =>
        ret (List.find
               (fun s => pyval_eqb (PStr (AnsibleGlesysServer.hostname s))
                                   (of_str hostname)) servers)
    end.

Definition get_server (serverid hostname : option string)
  : M W (option server) :=
  s <- find serverid hostname ;;
  match s with
  | Some s => s' <- AnsibleGlesysServer.update api s ;; ret (Some s')
  | None => ret None
  end.

Definition get_server_status (serverid : string) : M W string :=
  request (EvStatus serverid) (srv_status api serverid).

Definition get_server_details (serverid : string) : M W snapshot :=
  request (fun _ => EvDetails serverid) (srv_details api serverid).

Definition create_server
  (hostname datacenter platform template : option string)
  (cpus memory disk : option Z) (password : string)
  (bandwidth : option Z) (description users ssh_pub_key : option string)
  : M W snapshot :=
  password <- (if Z.of_nat (String.length password) <? 1
               then generate_temp_password 64
               else ret password) ;;
  let params :=
    {| cp_hostname := hostname; cp_platform := platform;
       cp_datacenter := datacenter; cp_templatename := template;
       cp_disksize := disk; cp_memorysize := memory;
       cp_cpucores := cpus; cp_bandwidth := bandwidth;
       cp_rootpassword := password; cp_description := description;
       cp_users := users; cp_ssh_pub_key := ssh_pub_key |} in
  request (fun _ => EvCreate params) (srv_create api params).

Definition remove_server (serverid : string) : M W unit :=
  request (fun _ => EvDestroy serverid "false")
          (srv_destroy api serverid).

(** The two dict comprehensions of [update_server]. *)
Definition edit_fields (s : server) (params : dict) : dict :=
  let params := filter (fun kv => truthy (snd kv)) params in
  filter (fun kv =>
            negb (pyval_eqb (snd kv)
                    (snapshot_get
                       (properties (AnsibleGlesysServer.to_json s))
                       (fst kv))))
         params.

Definition update_server (s : server) (params : dict)
  : M W (bool * option snapshot) :=
  let params := edit_fields s params in
  if (Z.of_nat (Datatypes.length params) =? 0) then ret (false, None)
  else
    let params :=
      dict_set params Serverid (PStr (AnsibleGlesysServer.serverid s)) in
    serverjson <- request (fun _ => EvEdit params) (srv_edit api params) ;;
    ret (true, Some serverjson).
End Methods.
End GlesysApi.

(** ** class GlesysRunner *)

Module GlesysRunner.
Section Methods.
Context {W : Type} (api : Provider W).

Definition sleep (seconds : Z) : M W unit :=
  fun s => (Ret tt,
            record (EvSleep seconds)
                   (with_cloud (elapse api seconds (cloud s)) s)).

Definition create_server (m : module) : M W server :=
  (if check_mode m
   then exit_json {| changed := true; res_server := None;
                     res_msg := None |}
   else ret tt) ;;
  let p := m_params m in
  server_json <-
    GlesysApi.create_server api
      (p_hostname p) (p_datacenter p) (p_platform p) (p_template p)
      (p_cpus p) (p_memory p) (p_disk p) (p_password p)
      (p_bandwidth p) (p_description p) (p_users p) (p_ssh_pub_key p) ;;
  ret (AnsibleGlesysServer.init server_json).

(** [while True] with a bound on the number of iterations. *)
Fixpoint wait_for_server_state (fuel : nat) (serverid target_state : string)
  : M W unit :=
  match fuel with
  | O => out_of_fuel
  | S fuel =>
      active_state <- GlesysApi.get_server_status api serverid ;;
      emit (EvPrint ("state: " ++ active_state)) ;;
      if (target_state =? "present")%string then ret tt
      else if (target_state =? active_state)%string then ret tt
      else
        sleep 1 ;;
        wait_for_server_state fuel serverid target_state
  end.

Fixpoint lock_loop (fuel : nat) (serverid active_state : string)
  : M W unit :=
  if (active_state =? "locked")%string
  then
    match fuel with
    | O => out_of_fuel
    | S fuel =>
        sleep 1 ;;
        active_state <- GlesysApi.get_server_status api serverid ;;
        lock_loop fuel serverid active_state
    end
  else ret tt.

Definition wait_for_server_lock (fuel : nat) (serverid : string)
  : M W unit :=
  active_state <- GlesysApi.get_server_status api serverid ;;
  lock_loop fuel serverid active_state.

(** The condition of the [if] in [update_server]. *)
Definition differs (serverdetails : snapshot) (p : params) : bool :=
  negb (pyval_eqb (PInt (sv_cpucores serverdetails)) (of_int (p_cpus p)))
  || negb (pyval_eqb (PInt (sv_disksize serverdetails))
                     (of_int (p_disk p)))
  || negb (pyval_eqb (PInt (sv_memorysize serverdetails))
                     (of_int (p_memory p)))
  || negb (pyval_eqb (PStr (sv_hostname serverdetails))
                     (of_str (p_hostname p)))
  || ((sv_editbandwidth serverdetails =? "yes")%string
      && negb (pyval_eqb (PInt (sv_bandwidth serverdetails))
                         (of_int (p_bandwidth p)))).

(** The dict literal passed to [api.update_server]. *)
Definition edit_request (p : params) : dict :=
  [ (Cpucores, of_int (p_cpus p));
    (Disksize, of_int (p_disk p));
    (Memorysize, of_int (p_memory p));
    (Bandwidth, of_int (p_bandwidth p));
    (Hostname, of_str (p_hostname p)) ].

Definition update_server (fuel : nat) (m : module)
  (s : server) (changed : bool) : M W (bool * server) :=
  let p := m_params m in
  serverdetails <-
    GlesysApi.get_server_details api (AnsibleGlesysServer.serverid s) ;;
  if differs serverdetails p then
    '(changed, serverjson) <-
      GlesysApi.update_server api s (edit_request p) ;;
    let s := match serverjson with
             | Some json => AnsibleGlesysServer.init json
             | None => s
             end in
    s <- AnsibleGlesysServer.update api s ;;
    (if p_wait p
     then wait_for_server_lock fuel (AnsibleGlesysServer.serverid s)
     else ret tt) ;;
    let changed := true in
    ret (changed, s)
  else ret (changed, s).

(** The [for] loop over [iplist], entered with [ipaddress = acc]. *)
Fixpoint ipaddress_loop (iplist : list ip_entry) (acc : string) : string :=
  match iplist with
  | [] => acc
  | i :: rest =>
      if ip_version i =? 4 then ip_address i
      else if ip_version i =? 6 then ipaddress_loop rest (ip_address i)
      else ipaddress_loop rest acc
  end.

Definition derive_ipaddress (iplist : list ip_entry) : string :=
  ipaddress_loop iplist "".

(** [server.attr] where [server] may still be [None]. *)
Definition the_server (attr : string) (s : option server) : M W server :=
  match s with
  | Some s => ret s
  | None =>
      raise (AttributeError
               ("'NoneType' object has no attribute '" ++ attr ++ "'"))
  end.

Definition run (fuel : nat) (m : module) : M W unit :=
  let p := m_params m in
  server <- GlesysApi.get_server api (p_serverid p) (p_hostname p) ;;
  let state := p_state p in
  (if (state =? "absent")%string then
     match server with
     | None =>
         exit_json {| changed := false; res_server := None;
                      res_msg := Some "Server already absent" |}
     | Some s =>
         wait_for_server_lock fuel (AnsibleGlesysServer.serverid s) ;;
         GlesysApi.remove_server api (AnsibleGlesysServer.serverid s) ;;
         exit_json {| changed := true; res_server := None;
                      res_msg := Some ("Server "
                                         ++ AnsibleGlesysServer.serverid s
                                         ++ " deleted") |}
     end
   else ret tt) ;;
  (* [changed] is bound only inside the [present] branch *)
  '(changed, server) <-
    (if (state =? "present")%string then
       '(changed, s) <-
         match server with
         | None =>
             s <- create_server m ;;
             wait_for_server_state fuel (AnsibleGlesysServer.serverid s)
                                   "running" ;;
             sleep 1 ;;
             ret (true, s)
         | Some s => update_server fuel m s false
         end ;;
       wait_for_server_lock fuel (AnsibleGlesysServer.serverid s) ;;
       ret (Some changed,
            Some {| properties := properties s;
                    ipaddress :=
                      Some (derive_ipaddress
                              (sv_iplist (properties s))) |})
     else ret (None, server)) ;;
  (if p_wait p then
     let target_state := state in
     let target_state :=
       if (target_state =? "rebooted")%string then "running"
       else target_state in
     s <- the_server "serverid" server ;;
     wait_for_server_state fuel (AnsibleGlesysServer.serverid s)
                           target_state
   else ret tt) ;;
  s <- the_server "update" server ;;
  s <- AnsibleGlesysServer.update api s ;;
  match changed with
  | None => raise (NameError "name 'changed' is not defined")
  | Some changed =>
      exit_json {| changed := changed;
                   res_server := Some (AnsibleGlesysServer.to_json s);
                   res_msg := None |}
  end.
End Methods.
End GlesysRunner.

(** ** What a provider answers to a run of status polls *)

Section Polling.
Context {W : Type} (api : Provider W).

(** The provider answers successive status polls for [serverid], one
    second apart, with exactly the states [l]; the result is the world it
    is left in. *)
Fixpoint answers (serverid : string) (l : list string) (w : W) : option W :=
  match l with
  | [] => Some w
  | a :: rest =>
      match srv_status api serverid w with
      | (Ok a', w') =>
          if (a' =? a)%string then
            match rest with
            | [] => Some w'
            | _ :: _ => answers serverid rest (elapse api 1 w')
            end
          else None
      | (HttpError _, _) => None
      end
  end.

(** [l] is a sequence a wait loop sits through: [stop] holds of its last
    state and of no earlier one. *)
Fixpoint waits_for (stop : string -> bool) (l : list string) : bool :=
  match l with
  | [] => false
  | a :: rest =>
      match rest with
      | [] => stop a
      | _ :: _ => negb (stop a) && waits_for stop rest
      end
  end.

(** The log of a wait loop over the answers [l], where each poll leaves
    the events [per a] and two polls are one second apart. *)
Fixpoint poll_trace (per : string -> list event) (l : list string)
  : list event :=
  match l with
  | [] => []
  | a :: rest =>
      match rest with
      | [] => per a
      | _ :: _ => (per a ++ EvSleep 1 :: poll_trace per rest)%list
      end
  end.

Definition lock_trace (serverid : string) : list string -> list event :=
  poll_trace (fun a => [EvStatus serverid (Ok a)]).

Definition state_trace (serverid : string) : list string -> list event :=
  poll_trace (fun a => [EvStatus serverid (Ok a);
                        EvPrint ("state: " ++ a)]).

Definition unlocked (a : string) : bool := negb (a =? "locked")%string.

Definition polls (l : list event) : nat :=
  List.length
    (filter (fun e => match e with EvStatus _ _ => true | _ => false end) l).

Definition sleeps (l : list event) : list Z :=
  flat_map (fun e => match e with EvSleep n => [n] | _ => [] end) l.

Definition extend (s : st W) (w : W) (evs : list event) : st W :=
  {| cloud := w; seed := seed s; cursor := cursor s;
     log := (log s ++ evs)%list |}.
End Polling.

(** ** A provider that does what it is asked and nothing else

    It keeps the servers it was asked to create, applies every edit it
    receives and changes nothing on its own.  [busy] holds the transient
    states it reports to the next status polls before the state of the
    server shows again. *)

Module Cloud.
Record world : Type := {
  servers : list snapshot;
  busy : list string
}.

Definition lookup (serverid : string) (w : world) : option snapshot :=
  List.find (fun s => (sv_serverid s =? serverid)%string) (servers w).

Definition list_servers (w : world) : reply (list snapshot) * world :=
  (Ok (servers w), w).

Definition details (serverid : string) (w : world)
  : reply snapshot * world :=
  match lookup serverid w with
  | Some s => (Ok s, w)
  | None => (HttpError "Server not found", w)
  end.

Definition status (serverid : string) (w : world) : reply string * world :=
  match busy w with
  | a :: rest => (Ok a, {| servers := servers w; busy := rest |})
  | [] =>
      match lookup serverid w with
      | Some s => (Ok (sv_state s), w)
      | None => (HttpError "Server not found", w)
      end
  end.

Definition create (p : create_params) (w : world)
  : reply snapshot * world :=
  let s :=
    {| sv_serverid := "wps1000";
       sv_hostname := match cp_hostname p with Some h => h | None => "" end;
       sv_cpucores := match cp_cpucores p with Some n => n | None => 1 end;
       sv_disksize := match cp_disksize p with Some n => n | None => 20 end;
       sv_memorysize :=
         match cp_memorysize p with Some n => n | None => 2048 end;
       sv_bandwidth :=
         match cp_bandwidth p with Some n => n | None => 100 end;
       sv_state := "running";
       sv_editbandwidth := "yes";
       sv_iplist := [ {| ip_version := 6; ip_address := "2001:db8::10" |};
                      {| ip_version := 4; ip_address := "192.0.2.10" |} ] |}
  in
  (Ok s, {| servers := s :: servers w; busy := ["locked"; "locked"] |}).

Definition set_field (s : snapshot) (kv : field * pyval) : snapshot :=
  match kv with
  | (Cpucores, PInt n) =>
      {| sv_serverid := sv_serverid s; sv_hostname := sv_hostname s;
         sv_cpucores := n; sv_disksize := sv_disksize s;
         sv_memorysize := sv_memorysize s; sv_bandwidth := sv_bandwidth s;
         sv_state := sv_state s; sv_editbandwidth := sv_editbandwidth s;
         sv_iplist := sv_iplist s |}
  | (Disksize, PInt n) =>
      {| sv_serverid := sv_serverid s; sv_hostname := sv_hostname s;
         sv_cpucores := sv_cpucores s; sv_disksize := n;
         sv_memorysize := sv_memorysize s; sv_bandwidth := sv_bandwidth s;
         sv_state := sv_state s; sv_editbandwidth := sv_editbandwidth s;
         sv_iplist := sv_iplist s |}
  | (Memorysize, PInt n) =>
      {| sv_serverid := sv_serverid s; sv_hostname := sv_hostname s;
         sv_cpucores := sv_cpucores s; sv_disksize := sv_disksize s;
         sv_memorysize := n; sv_bandwidth := sv_bandwidth s;
         sv_state := sv_state s; sv_editbandwidth := sv_editbandwidth s;
         sv_iplist := sv_iplist s |}
  | (Bandwidth, PInt n) =>
      {| sv_serverid := sv_serverid s; sv_hostname := sv_hostname s;
         sv_cpucores := sv_cpucores s; sv_disksize := sv_disksize s;
         sv_memorysize := sv_memorysize s; sv_bandwidth := n;
         sv_state := sv_state s; sv_editbandwidth := sv_editbandwidth s;
         sv_iplist := sv_iplist s |}
  | (Hostname, PStr h) =>
      {| sv_serverid := sv_serverid s; sv_hostname := h;
         sv_cpucores := sv_cpucores s; sv_disksize := sv_disksize s;
         sv_memorysize := sv_memorysize s; sv_bandwidth := sv_bandwidth s;
         sv_state := sv_state s; sv_editbandwidth := sv_editbandwidth s;
         sv_iplist := sv_iplist s |}
  | _ => s
  end.

Definition target (d : dict) : option string :=
  match List.find (fun kv => field_eqb (fst kv) Serverid) d with
  | Some (_, PStr serverid) => Some serverid
  | _ => None
  end.

Definition edit (d : dict) (w : world) : reply snapshot * world :=
  match target d with
  | Some serverid =>
      match lookup serverid w with
      | Some s =>
          let s' := fold_left set_field d s in
          (Ok s',
           {| servers :=
                map (fun x => if (sv_serverid x =? serverid)%string
                              then s' else x) (servers w);
              busy := ["locked"] |})
      | None => (HttpError "Server not found", w)
      end
  | None => (HttpError "Missing serverid", w)
  end.

Definition destroy (serverid : string) (w : world) : reply unit * world :=
  match lookup serverid w with
  | Some _ =>
      (Ok tt,
       {| servers :=
            filter (fun x => negb (sv_serverid x =? serverid)%string)
                   (servers w);
          busy := [] |})
  | None => (HttpError "Server not found", w)
  end.

Definition provider : Provider world :=
  {| srv_list := list_servers;
     srv_details := details;
     srv_status := status;
     srv_create := create;
     srv_edit := edit;
     srv_destroy := destroy;
     elapse := fun _ w => w |}.

(** A process that starts against the world [w]. *)
Definition boot (w : world) : st world :=
  {| cloud := w; seed := fun i => Z.of_nat (7 * i + 3); cursor := 0%nat;
     log := [] |}.

Definition web1 : snapshot :=
  {| sv_serverid := "wps1"; sv_hostname := "host01.example.com";
     sv_cpucores := 1; sv_disksize := 20; sv_memorysize := 2048;
     sv_bandwidth := 100; sv_state := "running";
     sv_editbandwidth := "no";
     sv_iplist := [ {| ip_version := 6; ip_address := "2001:db8::1" |};
                    {| ip_version := 4; ip_address := "192.0.2.1" |} ] |}.

(** The server a create of [new.example.com] with the defaults yields,
    and the world right after it. *)
Definition created (w : world) : snapshot * world :=
  let s :=
    {| sv_serverid := "wps1000"; sv_hostname := "new.example.com";
       sv_cpucores := 1; sv_disksize := 20; sv_memorysize := 2048;
       sv_bandwidth := 100; sv_state := "running";
       sv_editbandwidth := "yes";
       sv_iplist := [ {| ip_version := 6; ip_address := "2001:db8::10" |};
                      {| ip_version := 4; ip_address := "192.0.2.10" |} ] |}
  in (s, {| servers := s :: servers w; busy := ["locked"; "locked"] |}).

Definition empty : world := {| servers := []; busy := [] |}.
Definition one : world := {| servers := [web1]; busy := [] |}.
Definition one_locked : world :=
  {| servers := [web1]; busy := ["locked"; "locked"] |}.

(** The arguments of a task; what it does not name keeps its default. *)
Definition task (serverid hostname : option string)
           (cpus memory disk bandwidth : option Z) (state : string)
  : params :=
  {| p_serverid := serverid; p_hostname := hostname; p_cpus := cpus;
     p_memory := memory; p_disk := disk; p_bandwidth := bandwidth;
     p_password := ""; p_ssh_pub_key := None;
     p_datacenter := Some "Falkenberg";
     p_template := Some "Debian 9 64-bit"; p_platform := Some "VMware";
     p_state := state; p_users := None; p_description := None;
     p_wait := true; p_wait_timeout := 600 |}.
End Cloud.

(** ** Vocabulary of the statements *)

(** The bytes the next [os.urandom(n)] returns in state [s]. *)
Definition drawn {W} (s : st W) (n : nat) : list Z :=
  map (fun i => seed s (cursor s + i)%nat mod 256) (seq 0 n).

(** The password [generate_temp_password] builds from those bytes. *)
Definition password_of (bytes : list Z) : string :=
  string_of_list_ascii
    (map (fun c => char_at (c mod Z.of_nat (String.length chars))) bytes).

Definition alphabet : list ascii := list_ascii_of_string chars.

(** An uppercase letter or a digit other than I, O, 0 and 1. *)
Definition unambiguous (c : ascii) : bool :=
  let n := nat_of_ascii c in
  (((65 <=? n) && (n <=? 90)) || ((48 <=? n) && (n <=? 57)))%nat
  && negb ((n =? 73) || (n =? 79) || (n =? 48) || (n =? 49))%nat.

(** No character occurs twice. *)
Fixpoint distinct (l : list ascii) : bool :=
  match l with
  | [] => true
  | c :: r => negb (existsb (Ascii.eqb c) r) && distinct r
  end.

Definition first_of_version (v : Z) (l : list ip_entry) : option string :=
  option_map ip_address (List.find (fun i => ip_version i =? v) l).

Fixpoint last_of_version (v : Z) (l : list ip_entry) : option string :=
  match l with
  | [] => None
  | i :: rest =>
      match last_of_version v rest with
      | Some a => Some a
      | None => if ip_version i =? v then Some (ip_address i) else None
      end
  end.

(** The display address as the specification words it: the first IPv4
    address if there is one, otherwise the first IPv6 address. *)
Definition spec_ipaddress (l : list ip_entry) : option string :=
  match first_of_version 4 l with
  | Some a => Some a
  | None => first_of_version 6 l
  end.

(** The field-set as the specification words it: the fields whose desired
    value is set, an explicit zero or empty string included, and differs
    from the current value. *)
Definition spec_field_set (s : server) (d : dict) : dict :=
  filter (fun kv => negb (pyval_eqb (snd kv) PNone)
                    && negb (pyval_eqb (snd kv)
                               (snapshot_get (properties s) (fst kv)))) d.

(** An outcome that is an error: [fail_json] or an uncaught exception. *)
Definition loud {A} (o : outcome A) : Prop :=
  match o with
  | Fail _ | Raise _ => True
  | _ => False
  end.

Definition is_mutation (e : event) : bool :=
  match e with
  | EvCreate _ | EvEdit _ | EvDestroy _ _ => true
  | _ => false
  end.

(** The events a run added to the log. *)
Definition added {W} (before after : st W) : list event :=
  skipn (List.length (log before)) (log after).

(** The password [create_server] submits for the caller's [password]. *)
Definition submitted_password {W} (password : string) (s : st W) : string :=
  if (password =? "")%string then password_of (drawn s 64) else password.

(** The dictionary [create_server] posts for the parameters [p]. *)
Definition create_request (p : params) (rootpassword : string)
  : create_params :=
  {| cp_hostname := p_hostname p; cp_platform := p_platform p;
     cp_datacenter := p_datacenter p; cp_templatename := p_template p;
     cp_disksize := p_disk p; cp_memorysize := p_memory p;
     cp_cpucores := p_cpus p; cp_bandwidth := p_bandwidth p;
     cp_rootpassword := rootpassword; cp_description := p_description p;
     cp_users := p_users p; cp_ssh_pub_key := p_ssh_pub_key p |}.

Definition create_events {W} (p : params) (s : st W) : list event :=
  ((if (p_password p =? "")%string then [EvUrandom 64] else [])
     ++ [EvCreate (create_request p (submitted_password (p_password p) s))])
  %list.

(** The state once [n] bytes of entropy were consumed. *)
Definition advance {W} (n : nat) (s : st W) : st W :=
  {| cloud := cloud s; seed := seed s; cursor := (cursor s + n)%nat;
     log := log s |}.

Definition after_password {W} (password : string) (s : st W) : st W :=
  if (password =? "")%string then advance 64 s else s.

(** Whatever [c] does, it leaves the log it found as a prefix. *)
Definition grows {W A} (c : M W A) : Prop :=
  forall s, exists evs, log (snd (c s)) = (log s ++ evs)%list.

(** ** The rest of the module

    The parts of [server.py] that the run of a task goes through below the
    typed calls above, and the power calls no task reaches. *)

(** Whatever [c] does, every event it adds to the log satisfies [P]. *)
Definition emits {W A} (P : event -> Prop) (c : M W A) : Prop :=
  forall s, exists evs, log (snd (c s)) = (log s ++ evs)%list /\ Forall P evs.

(** [c] never ends in [module.exit_json]. *)
Definition quiet {W A} (c : M W A) : Prop :=
  forall s r, fst (c s) <> Exit r.

(** [c] never hands a value to what follows it. *)
Definition final {W A} (c : M W A) : Prop :=
  forall s a, fst (c s) <> Ret a.



Definition is_create (e : event) : bool :=
  match e with EvCreate _ => true | _ => false end.

Definition is_edit (e : event) : bool :=
  match e with EvEdit _ => true | _ => false end.

Definition is_destroy (e : event) : bool :=
  match e with EvDestroy _ _ => true | _ => false end.

(** The byte values [0 .. 255]. *)
Definition all_bytes : list Z := map Z.of_nat (seq 0 256).

(** How many byte values [generate_temp_password] turns into [c]. *)
Definition preimages (c : ascii) : nat :=
  List.length
    (filter (fun b => Ascii.eqb (char_at (b mod Z.of_nat (String.length chars)))
                                c)
            all_bytes).

(** The log of a lock wait that sits through [n] locked answers and then
    gets the answer [last]. *)
Fixpoint locked_then (serverid : string) (n : nat) (last : reply string)
  : list event :=
  match n with
  | O => [EvStatus serverid last]
  | S n => EvStatus serverid (Ok "locked") :: EvSleep 1
             :: locked_then serverid n last
  end.

(** The provider answers [n] status polls for [serverid], one second
    apart, with [locked] and refuses the next one with [text]; the result is
    the world it is left in. *)
Fixpoint refused_after {W} (api : Provider W) (serverid : string) (n : nat)
         (text : string) (w : W) : option W :=
  match srv_status api serverid w, n with
  | (HttpError t, w'), O => if (t =? text)%string then Some w' else None
  | (Ok a, w'), S n =>
      if (a =? "locked")%string
      then refused_after api serverid n text (elapse api 1 w')
      else None
  | _, _ => None
  end.

(** A second server, listed before [Cloud.web1]. *)
Definition db2 : snapshot :=
  {| sv_serverid := "wps2"; sv_hostname := "db.example.com";
     sv_cpucores := 2; sv_disksize := 40; sv_memorysize := 4096;
     sv_bandwidth := 100; sv_state := "running";
     sv_editbandwidth := "yes"; sv_iplist := [] |}.

Definition two_servers : Cloud.world :=
  {| Cloud.servers := [db2; Cloud.web1]; Cloud.busy := [] |}.

(** A provider that reports [locked] twice and then refuses. *)
Definition failing : Provider Cloud.world :=
  {| srv_list := Cloud.list_servers;
     srv_details := Cloud.details;
     srv_status :=
       fun _ w =>
         match Cloud.busy w with
         | a :: rest =>
             (Ok a, {| Cloud.servers := Cloud.servers w;
                       Cloud.busy := rest |})
         | [] => (HttpError "Service unavailable", w)
         end;
     srv_create := Cloud.create;
     srv_edit := Cloud.edit;
     srv_destroy := Cloud.destroy;
     elapse := fun _ w => w |}.

(** ** [GlesysApi.query] and [GlesysApi.parse_response] *)

Module Wire.

Local Unset Elimination Schemes.

(** What [module.from_json] returns. *)
Inductive json : Type :=
| JNull
| JBool (b : bool)
| JNum (n : Z)
| JStr (s : string)
| JArr (items : list json)
| JObj (members : list (string * json)).

Local Set Elimination Schemes.

(** How an expression over a parsed response ends. *)
Inductive result (A : Type) : Type :=
| Value (a : A)
| FailJson (msg : json)       (* module.fail_json(msg=...) *)
| KeyError (key : string)
| TypeError
| JSONDecodeError.            (* module.from_json on text that is no JSON *)
Arguments Value {A} a.
Arguments FailJson {A} msg.
Arguments KeyError {A} key.
Arguments TypeError {A}.
Arguments JSONDecodeError {A}.

Definition GLESYS_API_ENDPOINT : string := "https://api.glesys.com/".

(** The URL [query] builds: [data] is the dict of parameters, in insertion
    order, each value a string or [None]. *)
Definition query_url (module func : string)
           (data : list (string * option string)) : string :=
  fold_left
    (fun url kv =>
       match snd kv with
       | Some v => url ++ "/" ++ fst kv ++ "/" ++ v
       | None => url
       end)
    data (GLESYS_API_ENDPOINT ++ module ++ "/" ++ func).

(** [j[key]] for a string [key]. *)
Definition getitem (j : json) (key : string) : result json :=
  match j with
  | JObj members =>
      match List.find (fun kv => (fst kv =? key)%string) members with
      | Some (_, v) => Value v
      | None => KeyError key
      end
  | _ => TypeError
  end.

(** [j[k1][k2]...], evaluated from the left. *)
Definition path (j : json) (keys : list string) : result json :=
  fold_left
    (fun r key => match r with Value j => getitem j key | _ => r end)
    keys (Value j).

(** The [info] dict of [fetch_url]. *)
Record info : Type := {
  status : Z;
  body : string
}.

Section Parse.
(** [module.from_json]: the parsed value, or [None] where the text is no
    JSON and the parser raises. *)
Context (from_json : string -> option json).

(** [res] is what [response.read()] returned. *)
Definition parse_response (i : info) (res : string) : result json :=
  if status i >=? 400 then
    match from_json (body i) with
    | None => JSONDecodeError
    | Some error =>
        match path error ["response"; "status"; "text"] with
        | Value text => FailJson text
        | FailJson msg => FailJson msg
        | KeyError key => KeyError key
        | TypeError => TypeError
        | JSONDecodeError => JSONDecodeError
        end
    end
  else if (res =? "")%string then Value (JObj [])
  else
    match from_json res with
    | None => JSONDecodeError
    | Some data => Value data
    end.

(** [data["response"]["server"]["state"]] of [get_server_status]. *)
Definition server_state (data : json) : result json :=
  path data ["response"; "server"; "state"].

(** [serverjson["response"]["server"]] of [create_server] and of the
    runner's [update_server]. *)
Definition server_object (data : json) : result json :=
  path data ["response"; "server"].

(** [data["response"]["servers"]] of [list_server]. *)
Definition server_list (data : json) : result json :=
  path data ["response"; "servers"].

(** An accessor applied to what [parse_response] hands back. *)
Definition read (access : json -> result json) (i : info) (res : string)
  : result json :=
  match parse_response i res with
  | Value data => access data
  | FailJson msg => FailJson msg
  | KeyError key => KeyError key
  | TypeError => TypeError
  | JSONDecodeError => JSONDecodeError
  end.
End Parse.
End Wire.

(** ** [GlesysApi.set_power_state] and the power calls *)

Module Power.

Inductive result : Type :=
| Return (changed : bool)
| Failed (text : string)      (* module.fail_json from parse_response *)
| KeyError (key : string).

(** The values of the [transition] dict. *)
Inductive action : Type :=
| nop
| start_server
| stop_server
| reboot_server.

(** [transition[target_state]]; [None] where the key is missing. *)
Definition transition (target_state : string) : option action :=
  if (target_state =? "present")%string then Some nop
  else if (target_state =? "running")%string then Some start_server
  else if (target_state =? "stopped")%string then Some stop_server
  else if (target_state =? "rebooted")%string then Some reboot_server
  else None.

(** The function name each action posts to. *)
Definition func (a : action) : option string :=
  match a with
  | nop => None
  | start_server => Some "start"
  | stop_server => Some "stop"
  | reboot_server => Some "reboot"
  end.

Section Calls.
Context {W : Type}.
(** [post func serverid]: [self.post("server", func, {"serverid": id})]. *)
Context (post : string -> string -> W -> reply unit * W).

Definition set_power_state (serverid current_state target_state : string)
           (w : W) : result * W :=
  if (current_state =? target_state)%string then (Return false, w)
  else
    match transition target_state with
    | None => (KeyError target_state, w)
    | Some a =>
        match func a with
        | None => (Return true, w)
        | Some f =>
            match post f serverid w with
            | (Ok _, w') => (Return true, w')
            | (HttpError t, w') => (Failed t, w')
            end
        end
    end.
End Calls.
End Power.

(** A provider on which [serverid] never leaves the state [locked]. *)
Definition jammed : Provider Cloud.world :=
  {| srv_list := Cloud.list_servers;
     srv_details := Cloud.details;
     srv_status := fun _ w => (Ok "locked", w);
     srv_create := Cloud.create;
     srv_edit := Cloud.edit;
     srv_destroy := Cloud.destroy;
     elapse := fun _ w => w |}.

(** A provider whose every call is refused. *)
Definition refusing : Provider Cloud.world :=
  {| srv_list := fun w => (HttpError "Unauthorized", w);
     srv_details := fun _ w => (HttpError "Unauthorized", w);
     srv_status := fun _ w => (HttpError "Unauthorized", w);
     srv_create := fun _ w => (HttpError "Unauthorized", w);
     srv_edit := fun _ w => (HttpError "Unauthorized", w);
     srv_destroy := fun _ w => (HttpError "Unauthorized", w);
     elapse := fun _ w => w |}.

(** * Properties *)

(** ** The state and the monad *)

Section StateLemmas.
Context {W : Type}.
Implicit Types (s : st W) (w : W) (evs : list event).

Lemma extend_nil s : extend s (cloud s) [] = s.
Proof. destruct s; unfold extend; simpl. now rewrite app_nil_r. Qed.

Lemma extend_extend s w evs w' evs' :
  extend (extend s w evs) w' evs' = extend s w' (evs ++ evs').
Proof. unfold extend; simpl. now rewrite app_assoc. Qed.

Lemma record_extend s w evs e :
  record e (extend s w evs) = extend s w (evs ++ [e]).
Proof. unfold record, extend; simpl. now rewrite app_assoc. Qed.

Lemma record_with_cloud s w e :
  record e (with_cloud w s) = extend s w [e].
Proof. reflexivity. Qed.

Lemma bind_ret {A B} (c : M W A) (k : A -> M W B) s a s' :
  c s = (Ret a, s') -> bind c k s = k a s'.
Proof. intros H. unfold bind. now rewrite H. Qed.

Lemma bind_exit {A B} (c : M W A) (k : A -> M W B) s r s' :
  c s = (Exit r, s') -> bind c k s = (Exit r, s').
Proof. intros H. unfold bind. now rewrite H. Qed.

Lemma bind_raise {A B} (c : M W A) (k : A -> M W B) s e s' :
  c s = (Raise e, s') -> bind c k s = (Raise e, s').
Proof. intros H. unfold bind. now rewrite H. Qed.

Lemma bind_ret_l {A B} (a : A) (k : A -> M W B) s :
  bind (ret a) k s = k a s.
Proof. reflexivity. Qed.

Lemma bind_assoc {A B C} (c : M W A) (k1 : A -> M W B) (k2 : B -> M W C)
      s :
  bind (bind c k1) k2 s = bind c (fun a => bind (k1 a) k2) s.
Proof.
  unfold bind. destruct (c s) as [[a | r | t | e | ] s']; reflexivity.
Qed.

Lemma request_ok {A} (e : reply A -> event) (f : W -> reply A * W) s a w :
  f (cloud s) = (Ok a, w) -> request e f s = (Ret a, extend s w [e (Ok a)]).
Proof. intros H. unfold request. now rewrite H. Qed.

Lemma request_error {A} (e : reply A -> event) (f : W -> reply A * W)
      s t w :
  f (cloud s) = (HttpError t, w) ->
  request e f s = (Fail t, extend s w [e (HttpError t)]).
Proof. intros H. unfold request. now rewrite H. Qed.

Lemma emit_spec e s : emit e s = (Ret tt, extend s (cloud s) [e]).
Proof. reflexivity. Qed.
End StateLemmas.

Ltac mret H := rewrite (bind_ret _ _ _ _ _ H); cbv beta iota.

(** Run [tac] on the state the computation of the goal starts from. *)
Ltac on_state tac :=
  match goal with
  | |- context [bind _ _ ?s] => tac s
  end.

(** ** The wait loops *)

Section WaitLoops.
Context {W : Type} (api : Provider W).
Implicit Types (s : st W) (w : W) (l : list string).

Lemma sleep_spec n s :
  GlesysRunner.sleep api n s
  = (Ret tt, extend s (elapse api n (cloud s)) [EvSleep n]).
Proof. reflexivity. Qed.

Lemma status_spec serverid s a w :
  srv_status api serverid (cloud s) = (Ok a, w) ->
  GlesysApi.get_server_status api serverid s
  = (Ret a, extend s w [EvStatus serverid (Ok a)]).
Proof. intros H. unfold GlesysApi.get_server_status. now apply request_ok. Qed.

Lemma waits_for_cons stop a b l :
  waits_for stop (a :: b :: l) = negb (stop a) && waits_for stop (b :: l).
Proof. reflexivity. Qed.

(** What [answers] says about the first poll. *)
Lemma answers_cons serverid a l w w' :
  answers api serverid (a :: l) w = Some w' ->
  exists w1,
    srv_status api serverid w = (Ok a, w1)
    /\ match l with
       | [] => w' = w1
       | _ :: _ => answers api serverid l (elapse api 1 w1) = Some w'
       end.
Proof.
  simpl. destruct (srv_status api serverid w) as [[a' | t] w1];
    [ | discriminate ].
  destruct (String.eqb_spec a' a) as [-> | _]; [ | discriminate ].
  intros H. exists w1. split; [ reflexivity | ].
  destruct l; [ now inversion H | exact H ].
Qed.

(** With a target other than [present], the loop sits through every
    answer that is not the target and returns at the first that is. *)
Lemma wait_for_server_state_spec target serverid l :
  (target =? "present")%string = false ->
  forall fuel s w',
    waits_for (String.eqb target) l = true ->
    answers api serverid l (cloud s) = Some w' ->
    (List.length l <= fuel)%nat ->
    GlesysRunner.wait_for_server_state api fuel serverid target s
    = (Ret tt, extend s w' (state_trace serverid l)).
Proof.
  intros Hp. induction l as [ | a l IH]; intros fuel s w' Hw Ha Hf.
  - discriminate.
  - destruct fuel as [ | fuel]; [ simpl in Hf; lia | ].
    apply answers_cons in Ha. destruct Ha as (w1 & Hs & Hrest).
    cbn [GlesysRunner.wait_for_server_state].
    rewrite (bind_ret _ _ _ _ _ (status_spec _ _ _ _ Hs)).
    rewrite (bind_ret _ _ _ _ _ (emit_spec _ _)).
    rewrite extend_extend. rewrite Hp.
    destruct l as [ | b l].
    + simpl in Hw. rewrite Hw. subst w'. reflexivity.
    + rewrite waits_for_cons in Hw. apply andb_true_iff in Hw.
      destruct Hw as [Hn Hw]. apply negb_true_iff in Hn. rewrite Hn.
      rewrite (bind_ret _ _ _ _ _ (sleep_spec _ _)).
      rewrite extend_extend.
      match goal with
      | |- GlesysRunner.wait_for_server_state _ _ _ _ ?s0 = _ =>
          rewrite (IH fuel s0 w' Hw Hrest); [ | simpl in *; lia ]
      end.
      rewrite extend_extend. reflexivity.
Qed.

(** With target [present] the loop returns after its first poll. *)
Lemma wait_for_server_state_present serverid fuel s a w :
  srv_status api serverid (cloud s) = (Ok a, w) ->
  GlesysRunner.wait_for_server_state api (S fuel) serverid "present" s
  = (Ret tt, extend s w (state_trace serverid [a])).
Proof.
  intros Hs. cbn [GlesysRunner.wait_for_server_state].
  rewrite (bind_ret _ _ _ _ _ (status_spec _ _ _ _ Hs)).
  rewrite (bind_ret _ _ _ _ _ (emit_spec _ _)).
  rewrite extend_extend. reflexivity.
Qed.

Lemma lock_loop_spec serverid l :
  forall a fuel s w',
    waits_for unlocked (a :: l) = true ->
    match l with
    | [] => w' = cloud s
    | _ :: _ => answers api serverid l (elapse api 1 (cloud s)) = Some w'
    end ->
    (List.length l <= fuel)%nat ->
    GlesysRunner.lock_loop api fuel serverid a s
    = (Ret tt,
       extend s w'
         match l with
         | [] => []
         | _ :: _ => EvSleep 1 :: lock_trace serverid l
         end).
Proof.
  induction l as [ | b l IH]; intros a fuel s w' Hw Ha Hf.
  - simpl in Hw. unfold unlocked in Hw. apply negb_true_iff in Hw.
    subst w'. rewrite extend_nil.
    destruct fuel; simpl; now rewrite Hw.
  - rewrite waits_for_cons in Hw. apply andb_true_iff in Hw.
    destruct Hw as [Hn Hw]. unfold unlocked in Hn.
    rewrite negb_involutive in Hn.
    destruct fuel as [ | fuel]; [ simpl in Hf; lia | ].
    cbn [GlesysRunner.lock_loop]. rewrite Hn.
    rewrite (bind_ret _ _ _ _ _ (sleep_spec _ _)).
    apply answers_cons in Ha. destruct Ha as (w1 & Hs & Hrest).
    assert (Hs' : srv_status api serverid
                    (cloud (extend s (elapse api 1 (cloud s)) [EvSleep 1]))
                  = (Ok b, w1)) by exact Hs.
    rewrite (bind_ret _ _ _ _ _ (status_spec _ _ _ _ Hs')).
    rewrite extend_extend.
    match goal with
    | |- GlesysRunner.lock_loop _ _ _ _ ?s0 = _ =>
        rewrite (IH b fuel s0 w' Hw); [ | | simpl in *; lia ]
    end.
    + rewrite extend_extend. destruct l; reflexivity.
    + destruct l; [ now subst | exact Hrest ].
Qed.

(** The lock wait sits through every [locked] answer and returns at the
    first answer that is anything else. *)
Lemma wait_for_server_lock_spec serverid l fuel s w' :
  waits_for unlocked l = true ->
  answers api serverid l (cloud s) = Some w' ->
  (List.length l <= S fuel)%nat ->
  GlesysRunner.wait_for_server_lock api fuel serverid s
  = (Ret tt, extend s w' (lock_trace serverid l)).
Proof.
  intros Hw Ha Hf. destruct l as [ | a l]; [ discriminate | ].
  apply answers_cons in Ha. destruct Ha as (w1 & Hs & Hrest).
  unfold GlesysRunner.wait_for_server_lock.
  rewrite (bind_ret _ _ _ _ _ (status_spec _ _ _ _ Hs)).
  match goal with
  | |- GlesysRunner.lock_loop _ _ _ _ ?s0 = _ =>
      rewrite (lock_loop_spec serverid l a fuel s0 w' Hw);
        [ | | simpl in *; lia ]
  end.
  - rewrite extend_extend. destruct l; reflexivity.
  - destruct l; [ now subst | exact Hrest ].
Qed.
End WaitLoops.

(** C9: while the provider answers the status polls with locked, locked,
    running, both wait loops poll exactly three times, sleep one second
    between two polls, and return once running was observed. *)
Theorem C9_three_polls {W} (api : Provider W) serverid (s : st W) w' fuel :
  answers api serverid ["locked"; "locked"; "running"] (cloud s) = Some w' ->
  (3 <= fuel)%nat ->
  let quiet := [EvStatus serverid (Ok "locked"); EvSleep 1;
                EvStatus serverid (Ok "locked"); EvSleep 1;
                EvStatus serverid (Ok "running")] in
  let verbose := [EvStatus serverid (Ok "locked"); EvPrint "state: locked";
                  EvSleep 1;
                  EvStatus serverid (Ok "locked"); EvPrint "state: locked";
                  EvSleep 1;
                  EvStatus serverid (Ok "running");
                  EvPrint "state: running"] in
  GlesysRunner.wait_for_server_lock api fuel serverid s
  = (Ret tt, extend s w' quiet)
  /\ GlesysRunner.wait_for_server_state api fuel serverid "running" s
     = (Ret tt, extend s w' verbose)
  /\ polls quiet = 3%nat /\ sleeps quiet = [1; 1]
  /\ polls verbose = 3%nat /\ sleeps verbose = [1; 1].
Proof.
  intros Ha Hf. cbv zeta. repeat split.
  - now apply (wait_for_server_lock_spec api serverid
                 ["locked"; "locked"; "running"]); [ | | simpl; lia ].
  - now apply (wait_for_server_state_spec api "running" serverid
                 ["locked"; "locked"; "running"]); [ | | | simpl; lia ].
Qed.

Lemma C9_three_polls_witness :
  answers Cloud.provider "wps1" ["locked"; "locked"; "running"]
          (cloud (Cloud.boot Cloud.one_locked)) = Some Cloud.one
  /\ GlesysRunner.wait_for_server_lock Cloud.provider 3 "wps1"
       (Cloud.boot Cloud.one_locked)
     = (Ret tt,
        extend (Cloud.boot Cloud.one_locked) Cloud.one
          [EvStatus "wps1" (Ok "locked"); EvSleep 1;
           EvStatus "wps1" (Ok "locked"); EvSleep 1;
           EvStatus "wps1" (Ok "running")]).
Proof.
  split; [ reflexivity | ].
  apply (C9_three_polls Cloud.provider "wps1" (Cloud.boot Cloud.one_locked)
           Cloud.one 3); [ reflexivity | lia ].
Defined.

(** ** The display address *)

Lemma ipaddress_loop_spec l :
  forall acc,
    GlesysRunner.ipaddress_loop l acc
    = match first_of_version 4 l with
      | Some a => a
      | None => match last_of_version 6 l with
                | Some a => a
                | None => acc
                end
      end.
Proof.
  unfold first_of_version.
  induction l as [ | i l IH]; intros acc; simpl; [ reflexivity | ].
  destruct (ip_version i =? 4) eqn:E4; [ reflexivity | ].
  destruct (ip_version i =? 6) eqn:E6; rewrite IH;
    destruct (find _ l); simpl; try reflexivity;
    destruct (last_of_version 6 l); reflexivity.
Qed.

(** C3, as the code has it: the display address is the first IPv4 address
    of the list if there is one, otherwise the last IPv6 address of the
    list, otherwise the empty string; for [v6 "::1"; v4 "1.2.3.4"] it is
    "1.2.3.4". *)
Theorem C3_display_address (l : list ip_entry) :
  GlesysRunner.derive_ipaddress l
  = match first_of_version 4 l with
    | Some a => a
    | None => match last_of_version 6 l with
              | Some a => a
              | None => ""
              end
    end
  /\ GlesysRunner.derive_ipaddress
       [ {| ip_version := 6; ip_address := "::1" |};
         {| ip_version := 4; ip_address := "1.2.3.4" |} ] = "1.2.3.4".
Proof.
  split; [ apply ipaddress_loop_spec | reflexivity ].
Qed.

(** With two IPv6 addresses and no IPv4 address the code shows the second,
    the specification's wording the first. *)
Lemma C3_first_ipv6_counterexample :
  let l := [ {| ip_version := 6; ip_address := "::1" |};
             {| ip_version := 6; ip_address := "::2" |} ] in
  spec_ipaddress l = Some "::1"
  /\ GlesysRunner.derive_ipaddress l = "::2"
  /\ Some (GlesysRunner.derive_ipaddress l) <> spec_ipaddress l.
Proof.
  cbv zeta. repeat split. discriminate.
Qed.

(** ** The edit dictionary *)

Lemma edit_fields_in (s : server) (d : dict) k v :
  In (k, v) (GlesysApi.edit_fields s d)
  <-> In (k, v) d /\ truthy v = true
      /\ pyval_eqb v (snapshot_get (properties s) k) = false.
Proof.
  unfold GlesysApi.edit_fields, AnsibleGlesysServer.to_json.
  rewrite !filter_In. simpl. rewrite negb_true_iff. tauto.
Qed.

Lemma update_server_log {W} (api : Provider W) (s : server) (d : dict)
      (s0 : st W) :
  log (snd (GlesysApi.update_server api s d s0))
  = (log s0
       ++ match GlesysApi.edit_fields s d with
          | [] => []
          | kv :: fields =>
              [EvEdit (dict_set (kv :: fields) Serverid
                         (PStr (AnsibleGlesysServer.serverid s)))]
          end)%list.
Proof.
  unfold GlesysApi.update_server.
  destruct (GlesysApi.edit_fields s d) as [ | kv fields].
  - simpl. now rewrite app_nil_r.
  - cbn [Datatypes.length]. rewrite Nat2Z.inj_succ.
    destruct (Z.eqb_spec (Z.succ (Z.of_nat (Datatypes.length fields))) 0);
      [ lia | ].
    unfold bind, request.
    destruct (srv_edit api _ (cloud s0)) as [[json | t] w]; reflexivity.
Qed.

(** C5, as the code has it: the dictionary sent to [server/edit] holds,
    next to the server id, exactly the entries of the request whose value
    is truthy and differs from the server's current value.  An unset field
    is never sent, and neither is an explicit zero or empty string: the
    code treats them like an unset field. *)
Theorem C5_edit_field_set {W} (api : Provider W) (s : server) (d : dict)
        (s0 : st W) :
  (forall k v,
      In (k, v) (GlesysApi.edit_fields s d)
      <-> In (k, v) d /\ truthy v = true
          /\ pyval_eqb v (snapshot_get (properties s) k) = false)
  /\ (forall k, ~ In (k, PNone) (GlesysApi.edit_fields s d))
  /\ (forall k, ~ In (k, PInt 0) (GlesysApi.edit_fields s d))
  /\ (forall k, ~ In (k, PStr "") (GlesysApi.edit_fields s d))
  /\ log (snd (GlesysApi.update_server api s d s0))
     = (log s0
          ++ match GlesysApi.edit_fields s d with
             | [] => []
             | kv :: fields =>
                 [EvEdit (dict_set (kv :: fields) Serverid
                            (PStr (AnsibleGlesysServer.serverid s)))]
             end)%list.
Proof.
  split; [ intros; apply edit_fields_in | ].
  repeat split; try (intros k H; apply edit_fields_in in H;
                     destruct H as (_ & H & _); discriminate).
  apply update_server_log.
Qed.

(** A caller who asks for zero cores on a one-core server set the field and
    it differs, so the specification's field-set holds it; the code sends
    nothing. *)
Lemma C5_explicit_zero_counterexample :
  let s := AnsibleGlesysServer.init Cloud.web1 in
  let d := [ (Cpucores, PInt 0); (Disksize, PNone); (Memorysize, PNone);
             (Bandwidth, PInt 100); (Hostname, PNone) ] in
  spec_field_set s d = [ (Cpucores, PInt 0) ]
  /\ GlesysApi.edit_fields s d = []
  /\ GlesysApi.edit_fields s d <> spec_field_set s d.
Proof.
  cbv zeta. repeat split. discriminate.
Qed.

(** C8, as the code has it: when no field is left to send,
    [update_server] returns [(False, None)] normally, without a remote call
    and without an error. *)
Theorem C8_empty_update_returns {W} (api : Provider W) (s : server)
        (d : dict) (s0 : st W) :
  GlesysApi.edit_fields s d = [] ->
  GlesysApi.update_server api s d s0 = (Ret (false, None), s0).
Proof.
  intros H. unfold GlesysApi.update_server. now rewrite H.
Qed.

Lemma C8_empty_update_returns_witness :
  GlesysApi.edit_fields (AnsibleGlesysServer.init Cloud.web1)
                        [ (Cpucores, PInt 1); (Hostname, PNone) ] = []
  /\ GlesysApi.update_server Cloud.provider
       (AnsibleGlesysServer.init Cloud.web1)
       [ (Cpucores, PInt 1); (Hostname, PNone) ] (Cloud.boot Cloud.one)
     = (Ret (false, None), Cloud.boot Cloud.one).
Proof.
  split; [ reflexivity | ].
  apply (C8_empty_update_returns Cloud.provider
           (AnsibleGlesysServer.init Cloud.web1)
           [ (Cpucores, PInt 1); (Hostname, PNone) ] (Cloud.boot Cloud.one)).
  reflexivity.
Defined.

(** An update with nothing to change is not an error. *)
Lemma C8_not_loud_counterexample :
  let s := AnsibleGlesysServer.init Cloud.web1 in
  let d := [ (Cpucores, PInt 1); (Disksize, PInt 20); (Hostname, PNone) ] in
  GlesysApi.edit_fields s d = []
  /\ ~ loud (fst (GlesysApi.update_server Cloud.provider s d
                    (Cloud.boot Cloud.one)))
  /\ log (snd (GlesysApi.update_server Cloud.provider s d
                 (Cloud.boot Cloud.one))) = [].
Proof.
  cbv zeta. repeat split. intros H. exact H.
Qed.

(** ** Password generation *)

Lemma length_string_of_list_ascii (l : list ascii) :
  String.length (string_of_list_ascii l) = List.length l.
Proof. induction l; simpl; congruence. Qed.

Lemma password_of_length bytes :
  String.length (password_of bytes) = List.length bytes.
Proof.
  unfold password_of. now rewrite length_string_of_list_ascii, length_map.
Qed.

Lemma char_at_alphabet (c : Z) :
  In (char_at (c mod Z.of_nat (String.length chars))) alphabet.
Proof.
  unfold char_at, alphabet. apply nth_In.
  change (Z.of_nat (String.length chars)) with 32.
  change (List.length (list_ascii_of_string chars)) with 32%nat.
  pose proof (Z.mod_pos_bound c 32). lia.
Qed.

Lemma password_of_alphabet bytes :
  Forall (fun c => In c alphabet) (list_ascii_of_string (password_of bytes)).
Proof.
  unfold password_of. rewrite list_ascii_of_string_of_list_ascii.
  apply Forall_forall. intros c H. apply in_map_iff in H.
  destruct H as (b & <- & _). apply char_at_alphabet.
Qed.

Lemma generate_temp_password_ok {W} (length : Z) (s : st W) :
  8 <= length ->
  generate_temp_password length s
  = (Ret (password_of (drawn s (Z.to_nat length))),
     record (EvUrandom (Z.to_nat length))
       {| cloud := cloud s; seed := seed s;
          cursor := (cursor s + Z.to_nat length)%nat; log := log s |}).
Proof.
  intros H. unfold generate_temp_password.
  destruct (Z.ltb_spec length 8); [ lia | reflexivity ].
Qed.

Lemma unambiguous_alphabet (c : ascii) :
  unambiguous c = true <-> In c alphabet.
Proof.
  split.
  - destruct c as [[] [] [] [] [] [] [] []]; vm_compute; intros H;
      try discriminate; tauto.
  - intros H. vm_compute in H.
    repeat (destruct H as [<- | H]; [ reflexivity | ]). contradiction.
Qed.

Lemma distinct_NoDup (l : list ascii) : distinct l = true -> NoDup l.
Proof.
  induction l as [ | c r IH]; intros H; constructor.
  - apply andb_true_iff in H. destruct H as [H _].
    apply negb_true_iff in H. intros Hin.
    assert (existsb (Ascii.eqb c) r = true).
    { apply existsb_exists. exists c. split; [ exact Hin | ].
      apply Ascii.eqb_refl. }
    congruence.
  - apply IH. apply andb_true_iff in H. apply H.
Qed.

Lemma alphabet_nodup : NoDup alphabet.
Proof. apply distinct_NoDup. reflexivity. Qed.

(** C7, as the code has it: a length below 8 raises [ValueError] before
    anything else happens; a length of at least 8 returns a password of
    exactly that length over the alphabet [chars], after one read of the
    entropy source and no remote call.  The alphabet has 32 characters, not
    33: the uppercase letters and digits other than I, O, 0 and 1, each
    once. *)
Theorem C7_generate_temp_password {W} (length : Z) (s : st W) :
  (if length <? 8
   then generate_temp_password length s
        = (Raise (ValueError "temp password must have positive length"), s)
   else exists pw s',
       generate_temp_password length s = (Ret pw, s')
       /\ String.length pw = Z.to_nat length
       /\ Forall (fun c => In c alphabet) (list_ascii_of_string pw)
       /\ log s' = (log s ++ [EvUrandom (Z.to_nat length)])%list
       /\ cloud s' = cloud s)
  /\ List.length alphabet = 32%nat
  /\ NoDup alphabet
  /\ (forall c, In c alphabet <-> unambiguous c = true).
Proof.
  split; [ | split; [ reflexivity | split; [ apply alphabet_nodup | ] ] ].
  - destruct (Z.ltb_spec length 8) as [Hlt | Hge].
    + unfold generate_temp_password.
      destruct (Z.ltb_spec length 8); [ reflexivity | lia ].
    + eexists. eexists. split; [ now apply generate_temp_password_ok | ].
      split; [ | split; [ apply password_of_alphabet | split; reflexivity ] ].
      rewrite password_of_length. unfold drawn.
      now rewrite length_map, length_seq.
  - intros c. symmetry. apply unambiguous_alphabet.
Qed.

(** No alphabet of 33 distinct uppercase letters and digits other than I, O,
    0 and 1 exists, so the generated characters cannot be drawn from one. *)
Lemma C7_alphabet_33_counterexample :
  String.length chars = 32%nat
  /\ ~ (exists a : list ascii,
           List.length a = 33%nat /\ NoDup a
           /\ Forall (fun c => unambiguous c = true) a
           /\ forall (length : Z) (s : st unit) pw s',
               8 <= length ->
               generate_temp_password length s = (Ret pw, s') ->
               Forall (fun c => In c a) (list_ascii_of_string pw)).
Proof.
  split; [ reflexivity | ].
  intros (a & Hlen & Hnd & Hall & _).
  assert (Hincl : incl a alphabet).
  { intros c Hc. apply unambiguous_alphabet.
    rewrite Forall_forall in Hall. now apply Hall. }
  pose proof (NoDup_incl_length Hnd Hincl) as Hle.
  change (List.length alphabet) with 32%nat in Hle. lia.
Qed.

(** C6: whatever [create_server] is called with, the root password it
    submits is not empty.  A caller's non-empty password is submitted as it
    is, and the entropy source is not touched; for an empty password a
    generated one of 64 characters of the alphabet is submitted. *)
Theorem C6_create_password {W} (api : Provider W)
        (hostname datacenter platform template : option string)
        (cpus memory disk : option Z) (password : string)
        (bandwidth : option Z) (description users ssh_pub_key : option string)
        (s : st W) :
  let r := GlesysApi.create_server api hostname datacenter platform template
             cpus memory disk password bandwidth description users
             ssh_pub_key s in
  let submitted :=
    if (password =? "")%string then password_of (drawn s 64) else password in
  log (snd r)
  = (log s
       ++ (if (password =? "")%string then [EvUrandom 64] else [])
       ++ [EvCreate
             {| cp_hostname := hostname; cp_platform := platform;
                cp_datacenter := datacenter; cp_templatename := template;
                cp_disksize := disk; cp_memorysize := memory;
                cp_cpucores := cpus; cp_bandwidth := bandwidth;
                cp_rootpassword := submitted; cp_description := description;
                cp_users := users; cp_ssh_pub_key := ssh_pub_key |}])%list
  /\ submitted <> ""
  /\ (if (password =? "")%string
      then (8 <= String.length submitted)%nat
           /\ Forall (fun c => In c alphabet) (list_ascii_of_string submitted)
      else submitted = password /\ cursor (snd r) = cursor s).
Proof.
  cbv zeta. unfold GlesysApi.create_server.
  destruct password as [ | c rest].
  - change (Z.of_nat (String.length "") <? 1) with true.
    change ("" =? "")%string with true. cbv iota.
    rewrite (bind_ret _ _ _ _ _ (generate_temp_password_ok 64 s ltac:(lia))).
    change (Z.to_nat 64) with 64%nat.
    assert (Hlen : String.length (password_of (drawn s 64)) = 64%nat).
    { rewrite password_of_length. unfold drawn.
      now rewrite length_map, length_seq. }
    split; [ | split; [ | split ] ].
    + unfold request. cbn [cloud record].
      destruct (srv_create api _ (cloud s)) as [[json | t] w]; simpl;
        now rewrite <- app_assoc.
    + intros E. rewrite E in Hlen. discriminate.
    + rewrite Hlen. lia.
    + apply password_of_alphabet.
  - assert (E : (Z.of_nat (String.length (String c rest)) <? 1) = false).
    { apply Z.ltb_ge. cbn [String.length]. lia. }
    rewrite E. change (String c rest =? "")%string with false. cbv iota.
    unfold bind, ret, request.
    destruct (srv_create api _ (cloud s)) as [[json | t] w]; simpl;
      repeat split; discriminate.
Qed.

(** ** The log only grows *)

Section Growth.
Context {W : Type} (api : Provider W).

Lemma grows_ret {A} (a : A) : grows (ret a : M W A).
Proof. intros s. exists []. simpl. now rewrite app_nil_r. Qed.

Lemma grows_stop {A} (o : outcome A) : grows (fun s : st W => (o, s)).
Proof. intros s. exists []. simpl. now rewrite app_nil_r. Qed.

Lemma grows_bind {A B} (c : M W A) (k : A -> M W B) :
  grows c -> (forall a, grows (k a)) -> grows (bind c k).
Proof.
  intros Hc Hk s. unfold bind. destruct (Hc s) as [evs Hevs].
  destruct (c s) as [[a | r | t | e | ] s']; simpl in Hevs;
    try (exists evs; exact Hevs).
  destruct (Hk a s') as [evs' Hevs']. exists (evs ++ evs')%list.
  rewrite Hevs', Hevs. now rewrite app_assoc.
Qed.

Lemma grows_request {A} (e : reply A -> event) (f : W -> reply A * W) :
  grows (request e f).
Proof.
  intros s. unfold request. destruct (f (cloud s)) as [[a | t] w];
    eexists; reflexivity.
Qed.

Lemma grows_sleep n : grows (GlesysRunner.sleep api n).
Proof. intros s. eexists. reflexivity. Qed.

Lemma grows_emit e : grows (emit e : M W unit).
Proof. intros s. eexists. reflexivity. Qed.

Lemma grows_if {A} (b : bool) (c1 c2 : M W A) :
  grows c1 -> grows c2 -> grows (if b then c1 else c2).
Proof. now destruct b. Qed.

Lemma grows_lock_loop fuel serverid :
  forall a, grows (GlesysRunner.lock_loop api fuel serverid a).
Proof.
  induction fuel as [ | fuel IH]; intros a; simpl;
    destruct (a =? "locked")%string; try apply grows_ret;
    try apply (grows_stop OutOfFuel).
  apply grows_bind; [ apply grows_sleep | intros _ ].
  apply grows_bind; [ apply grows_request | exact IH ].
Qed.

Lemma grows_wait_for_server_lock fuel serverid :
  grows (GlesysRunner.wait_for_server_lock api fuel serverid).
Proof.
  apply grows_bind; [ apply grows_request | apply grows_lock_loop ].
Qed.

Lemma grows_update {s : server} : grows (AnsibleGlesysServer.update api s).
Proof.
  apply grows_bind; [ apply grows_request | intros; apply grows_ret ].
Qed.

Lemma grows_in {A} (c : M W A) e s :
  grows c -> In e (log s) -> In e (log (snd (c s))).
Proof.
  intros Hc Hin. destruct (Hc s) as [evs ->]. apply in_or_app. now left.
Qed.
End Growth.

(** ** The create path *)

Section CreatePath.
Context {W : Type} (api : Provider W).

Lemma runner_create_server_spec (m : module) (s : st W) json w :
  check_mode m = false ->
  srv_create api
    (create_request (m_params m)
                    (submitted_password (p_password (m_params m)) s))
    (cloud s) = (Ok json, w) ->
  GlesysRunner.create_server api m s
  = (Ret (AnsibleGlesysServer.init json),
     extend (after_password (p_password (m_params m)) s) w
            (create_events (m_params m) s)).
Proof.
  intros Hc Hs.
  unfold GlesysRunner.create_server, GlesysApi.create_server,
    create_events, after_password, submitted_password in *.
  rewrite Hc. unfold create_request in Hs.
  destruct (p_password (m_params m)) as [ | c rest].
  - change (Z.of_nat (String.length "") <? 1) with true.
    change ("" =? "")%string with true in *. cbv iota in *.
    unfold bind at 1. unfold ret at 1. unfold bind at 1. unfold bind at 1.
    rewrite (generate_temp_password_ok 64 s ltac:(lia)).
    change (Z.to_nat 64) with 64%nat.
    unfold request. cbn [cloud record]. rewrite Hs.
    unfold ret, record, with_cloud, extend, advance, create_request.
    simpl. now rewrite <- app_assoc.
  - assert (E : (Z.of_nat (String.length (String c rest)) <? 1) = false).
    { apply Z.ltb_ge. cbn [String.length]. lia. }
    rewrite E. change (String c rest =? "")%string with false in *.
    cbv iota in *. unfold bind, ret, request. rewrite Hs. reflexivity.
Qed.
End CreatePath.

(** X24: with state [present] and check mode off, when the lookup finds
    no server, [run] posts a create built from the desired hostname,
    placement and sizing, polls until the new server is running, sleeps one
    second, and (after the lock wait, the optional wait and the final
    refresh) exits with [changed=True]. *)
Theorem run_creates_when_missing {W} (api : Provider W) (m : module)
        (s0 s1 : st W) (json details : snapshot) (w2 w3 w4 w5 w6 : W)
        (booting settling : list string) (seen : string) (fuel : nat) :
  let p := m_params m in
  let serverid := sv_serverid json in
  p_state p = "present" ->
  check_mode m = false ->
  GlesysApi.get_server api (p_serverid p) (p_hostname p) s0 = (Ret None, s1) ->
  srv_create api
    (create_request p (submitted_password (p_password p) s1)) (cloud s1)
  = (Ok json, w2) ->
  answers api serverid booting w2 = Some w3 ->
  waits_for (String.eqb "running") booting = true ->
  answers api serverid settling (elapse api 1 w3) = Some w4 ->
  waits_for unlocked settling = true ->
  (if p_wait p then srv_status api serverid w4 = (Ok seen, w5)
   else w5 = w4) ->
  srv_details api serverid w5 = (Ok details, w6) ->
  (1 <= fuel)%nat ->
  (List.length booting <= fuel)%nat ->
  (List.length settling <= S fuel)%nat ->
  exists s',
    GlesysRunner.run api fuel m s0
    = (Exit {| changed := true;
               res_server :=
                 Some {| properties := details;
                         ipaddress :=
                           Some (GlesysRunner.derive_ipaddress
                                   (sv_iplist json)) |};
               res_msg := None |}, s')
    /\ cloud s' = w6
    /\ log s'
       = (log s1
            ++ create_events p s1
            ++ state_trace serverid booting
            ++ [EvSleep 1]
            ++ lock_trace serverid settling
            ++ (if p_wait p then state_trace serverid [seen] else [])
            ++ [EvDetails serverid])%list.
Proof.
  intros p serverid Hstate Hcheck Hget Hcreate Hboot Hbooting Hsettle
         Hsettling Hseen Hdetails Hfuel Hf1 Hf2.
  unfold GlesysRunner.run. fold p. mret Hget.
  rewrite Hstate.
  change ("present" =? "absent")%string with false.
  change ("present" =? "present")%string with true.
  change ("present" =? "rebooted")%string with false.
  cbv beta iota zeta. rewrite bind_ret_l. rewrite !bind_assoc.
  mret (runner_create_server_spec api m s1 json w2 Hcheck Hcreate).
  change (AnsibleGlesysServer.serverid (AnsibleGlesysServer.init json))
    with serverid.
  fold p. rewrite !bind_assoc.
  on_state ltac:(fun s =>
    mret (wait_for_server_state_spec api "running" serverid booting
            eq_refl fuel s w3 Hbooting Hboot Hf1)).
  rewrite extend_extend, !bind_assoc.
  on_state ltac:(fun s => mret (sleep_spec api 1 s)).
  rewrite extend_extend, bind_ret_l. cbv beta iota.
  rewrite !bind_assoc.
  cbn [AnsibleGlesysServer.serverid AnsibleGlesysServer.init properties].
  fold serverid.
  on_state ltac:(fun s =>
    mret (wait_for_server_lock_spec api serverid settling fuel s w4
            Hsettling Hsettle Hf2)).
  rewrite extend_extend, bind_ret_l. cbv beta iota.
  unfold GlesysRunner.the_server.
  assert (Hlast :
           forall s : st W,
             cloud s = w5 ->
             bind (AnsibleGlesysServer.update api
                     {| properties := json;
                        ipaddress :=
                          Some (GlesysRunner.derive_ipaddress
                                  (sv_iplist json)) |})
                  (fun s2 =>
                     exit_json
                       {| changed := true;
                          res_server := Some (AnsibleGlesysServer.to_json s2);
                          res_msg := None |}) s
             = (Exit {| changed := true;
                        res_server :=
                          Some {| properties := details;
                                  ipaddress :=
                                    Some (GlesysRunner.derive_ipaddress
                                            (sv_iplist json)) |};
                        res_msg := None |} : outcome unit,
                extend s w6 [EvDetails serverid])).
  { intros s Hs. unfold AnsibleGlesysServer.update.
    rewrite bind_assoc.
    change (AnsibleGlesysServer.serverid
              {| properties := json;
                 ipaddress :=
                   Some (GlesysRunner.derive_ipaddress (sv_iplist json)) |})
      with serverid.
    rewrite <- Hs in Hdetails.
    rewrite (bind_ret _ _ _ _ _ (request_ok _ _ s details w6 Hdetails)).
    reflexivity. }
  cbn [properties AnsibleGlesysServer.init].
  destruct (p_wait p).
  - rewrite bind_assoc, bind_ret_l.
    change (AnsibleGlesysServer.serverid
              {| properties := json;
                 ipaddress :=
                   Some (GlesysRunner.derive_ipaddress (sv_iplist json)) |})
      with serverid.
    destruct fuel as [ | fuel]; [ lia | ].
    on_state ltac:(fun s =>
      mret (wait_for_server_state_present api serverid fuel s seen w5
              Hseen)).
    rewrite extend_extend, bind_ret_l, Hlast by reflexivity.
    rewrite extend_extend.
    eexists. split; [ reflexivity | ]. split; [ reflexivity | ].
    cbn [log extend]. unfold after_password.
    destruct (p_password p =? "")%string; cbn [log advance];
      now rewrite <- !app_assoc.
  - subst w5. rewrite !bind_ret_l, Hlast by reflexivity.
    rewrite extend_extend.
    eexists. split; [ reflexivity | ]. split; [ reflexivity | ].
    cbn [log extend]. unfold after_password.
    destruct (p_password p =? "")%string; cbn [log advance];
      now rewrite <- !app_assoc.
Qed.

Lemma run_creates_when_missing_witness :
  let m := {| m_params := Cloud.task None (Some "new.example.com")
                            None None None (Some 100) "present";
              check_mode := false |} in
  p_state (m_params m) = "present"
  /\ exists r s',
      GlesysRunner.run Cloud.provider 3 m (Cloud.boot Cloud.empty)
      = (Exit r, s')
      /\ changed r = true.
Proof.
  cbv zeta. split; [ reflexivity | ].
  destruct (run_creates_when_missing Cloud.provider
              {| m_params := Cloud.task None (Some "new.example.com")
                               None None None (Some 100) "present";
                 check_mode := false |}
              (Cloud.boot Cloud.empty)
              (extend (Cloud.boot Cloud.empty) Cloud.empty [EvList])
              (fst (Cloud.created Cloud.empty))
              (fst (Cloud.created Cloud.empty))
              (snd (Cloud.created Cloud.empty))
              {| Cloud.servers := [fst (Cloud.created Cloud.empty)];
                 Cloud.busy := [] |}
              {| Cloud.servers := [fst (Cloud.created Cloud.empty)];
                 Cloud.busy := [] |}
              {| Cloud.servers := [fst (Cloud.created Cloud.empty)];
                 Cloud.busy := [] |}
              {| Cloud.servers := [fst (Cloud.created Cloud.empty)];
                 Cloud.busy := [] |}
              ["locked"; "locked"; "running"] ["running"] "running" 3)
    as (s' & Hrun & _);
    try reflexivity; try (simpl; lia).
  eexists. exists s'. split; [ exact Hrun | reflexivity ].
Defined.

(** With a state other than [absent] and [present], when the lookup finds
    no server, [run] reaches [server.serverid()] (or, without [wait],
    [server.update()]) with [server] still [None]: it raises
    [AttributeError] in the state the lookup left. *)
Lemma run_power_state_missing_server {W} (api : Provider W) (fuel : nat)
      (m : module) (s0 s1 : st W) :
  let p := m_params m in
  (p_state p =? "absent")%string = false ->
  (p_state p =? "present")%string = false ->
  GlesysApi.get_server api (p_serverid p) (p_hostname p) s0 = (Ret None, s1) ->
  GlesysRunner.run api fuel m s0
  = (Raise (AttributeError
              ("'NoneType' object has no attribute '"
                 ++ (if p_wait p then "serverid" else "update") ++ "'")),
     s1).
Proof.
  intros p Ha Hp Hget. unfold GlesysRunner.run. fold p. mret Hget.
  cbv zeta. rewrite Ha, Hp. rewrite !bind_ret_l. cbv beta iota.
  destruct (p_wait p); reflexivity.
Qed.

(** C4 fails on the code.  With state [running], [stopped] or [rebooted]
    and check mode off, when the lookup finds no server, [run] creates
    nothing: after the list call it raises [AttributeError] on
    [server.serverid()] of [None].  The create sits under
    [if state == "present"] alone. *)
Theorem C4_power_states_create_nothing :
  let task state :=
    {| m_params := Cloud.task None (Some "new.example.com")
                     None None None (Some 100) state;
       check_mode := false |} in
  let run state :=
    GlesysRunner.run Cloud.provider 3 (task state) (Cloud.boot Cloud.empty) in
  let died : outcome unit * st Cloud.world :=
    (Raise (AttributeError "'NoneType' object has no attribute 'serverid'"),
     extend (Cloud.boot Cloud.empty) Cloud.empty [EvList]) in
  run "running" = died
  /\ run "stopped" = died
  /\ run "rebooted" = died
  /\ filter is_mutation (log (snd died)) = []
  /\ (exists r, fst (run "present") = Exit r /\ changed r = true)
  /\ map is_create (filter is_mutation (log (snd (run "present")))) = [true].
Proof.
  cbv zeta.
  split; [ reflexivity | ]. split; [ reflexivity | ].
  split; [ reflexivity | ]. split; [ reflexivity | ].
  split; [ | reflexivity ].
  eexists. split; reflexivity.
Qed.

(** ** The update path *)

Section UpdatePath.
Context {W : Type} (api : Provider W).

Lemma bind_log_in {A B} (c : M W A) (k : A -> M W B) e s :
  In e (log (snd (c s))) -> (forall a, grows (k a)) ->
  In e (log (snd (bind c k s))).
Proof.
  intros Hin Hk. unfold bind.
  destruct (c s) as [[a | r | t | x | ] s']; simpl in *; try exact Hin.
  now apply grows_in.
Qed.

(** Nothing differs: one details call and the server is left alone. *)
Lemma update_server_matching fuel (m : module) (srv : server) c
      (s : st W) details w :
  srv_details api (AnsibleGlesysServer.serverid srv) (cloud s)
  = (Ok details, w) ->
  GlesysRunner.differs details (m_params m) = false ->
  GlesysRunner.update_server api fuel m srv c s
  = (Ret (c, srv),
     extend s w [EvDetails (AnsibleGlesysServer.serverid srv)]).
Proof.
  intros Hd Hn. unfold GlesysRunner.update_server,
                  GlesysApi.get_server_details.
  mret (request_ok (fun _ => EvDetails (AnsibleGlesysServer.serverid srv))
          _ s details w Hd).
  now rewrite Hn.
Qed.

(** A difference in bandwidth alone does not count when the provider
    cannot edit the bandwidth of this server. *)
Lemma bandwidth_only_difference (details : snapshot) (p : params) :
  sv_editbandwidth details <> "yes" ->
  p_cpus p = Some (sv_cpucores details) ->
  p_disk p = Some (sv_disksize details) ->
  p_memory p = Some (sv_memorysize details) ->
  p_hostname p = Some (sv_hostname details) ->
  GlesysRunner.differs details p = false.
Proof.
  intros He Hc Hd Hm Hh. unfold GlesysRunner.differs.
  rewrite Hc, Hd, Hm, Hh. simpl.
  rewrite !Z.eqb_refl, String.eqb_refl. simpl.
  destruct (String.eqb_spec (sv_editbandwidth details) "yes");
    [ contradiction | reflexivity ].
Qed.

(** Whenever the condition of [update_server] holds, the edit dictionary
    it computes is posted, whatever happens afterwards. *)
Lemma update_server_posts fuel (m : module) (srv : server) c
      (s : st W) details w :
  let p := m_params m in
  let serverid := AnsibleGlesysServer.serverid srv in
  srv_details api serverid (cloud s) = (Ok details, w) ->
  GlesysRunner.differs details p = true ->
  GlesysApi.edit_fields srv (GlesysRunner.edit_request p) <> [] ->
  In (EvEdit (dict_set
                (GlesysApi.edit_fields srv (GlesysRunner.edit_request p))
                Serverid (PStr serverid)))
     (log (snd (GlesysRunner.update_server api fuel m srv c s))).
Proof.
  intros p serverid Hd Hdiff Hne.
  unfold GlesysRunner.update_server, GlesysApi.get_server_details.
  fold p. fold serverid.
  mret (request_ok (fun _ => EvDetails serverid) _ s details w Hd).
  rewrite Hdiff. apply bind_log_in.
  - rewrite update_server_log.
    destruct (GlesysApi.edit_fields srv (GlesysRunner.edit_request p))
      as [ | kv fields]; [ contradiction | ].
    apply in_or_app. right. now left.
  - intros [c' json]. apply grows_bind; [ apply grows_update | intros s' ].
    apply grows_bind; [ | intros; apply grows_ret ].
    apply grows_if; [ apply grows_wait_for_server_lock | apply grows_ret ].
Qed.

(** The slip behind the lost idempotence: once the condition holds,
    [update_server] answers [changed=True] even when [api.update_server]
    found nothing to send and said [False]. *)
Lemma update_server_always_changed fuel (m : module) (srv : server) c
      (s : st W) details w c' srv' s' :
  srv_details api (AnsibleGlesysServer.serverid srv) (cloud s)
  = (Ok details, w) ->
  GlesysRunner.differs details (m_params m) = true ->
  GlesysRunner.update_server api fuel m srv c s = (Ret (c', srv'), s') ->
  c' = true.
Proof.
  intros Hd Hdiff. unfold GlesysRunner.update_server,
                     GlesysApi.get_server_details.
  mret (request_ok (fun _ => EvDetails (AnsibleGlesysServer.serverid srv))
          _ s details w Hd).
  rewrite Hdiff. unfold bind, ret.
  destruct (GlesysApi.update_server api srv _ _) as [[[c0 j] | | | | ] s1];
    try discriminate.
  destruct (AnsibleGlesysServer.update api _ s1) as [[u | | | | ] s2];
    try discriminate.
  destruct (p_wait (m_params m)).
  - destruct (GlesysRunner.wait_for_server_lock api fuel _ s2)
      as [[[] | | | | ] s3]; try discriminate.
    intros H. now inversion H.
  - intros H. now inversion H.
Qed.
End UpdatePath.

(** C10: check mode is consulted by the create path alone.  When the lookup
    finds a server, [run] and [update_server] behave under check mode as
    they do without it: with state [absent] the destroy call is posted and
    [changed=True] is reported, and the update path posts its edit. *)
Theorem C10_check_mode_guards_only_create {W} (api : Provider W) (m : module)
        (srv : server) (s0 s1 : st W) (fuel : nat) :
  let p := m_params m in
  let serverid := AnsibleGlesysServer.serverid srv in
  GlesysApi.get_server api (p_serverid p) (p_hostname p) s0
  = (Ret (Some srv), s1) ->
  (forall b,
      GlesysRunner.run api fuel (with_check_mode b m) s0
      = GlesysRunner.run api fuel m s0)
  /\ (forall b c s,
         GlesysRunner.update_server api fuel (with_check_mode b m) srv c s
         = GlesysRunner.update_server api fuel m srv c s)
  /\ (forall locks w2 w3,
         p_state p = "absent" ->
         answers api serverid locks (cloud s1) = Some w2 ->
         waits_for unlocked locks = true ->
         (List.length locks <= S fuel)%nat ->
         srv_destroy api serverid w2 = (Ok tt, w3) ->
         GlesysRunner.run api fuel (with_check_mode true m) s0
         = (Exit {| changed := true; res_server := None;
                    res_msg := Some ("Server " ++ serverid ++ " deleted") |},
            extend s1 w3
                   (lock_trace serverid locks
                      ++ [EvDestroy serverid "false"])%list))
  /\ (forall c details w,
         srv_details api serverid (cloud s1) = (Ok details, w) ->
         GlesysRunner.differs details p = true ->
         GlesysApi.edit_fields srv (GlesysRunner.edit_request p) <> [] ->
         In (EvEdit (dict_set
                       (GlesysApi.edit_fields srv (GlesysRunner.edit_request p))
                       Serverid (PStr serverid)))
            (log (snd (GlesysRunner.update_server api fuel
                         (with_check_mode true m) srv c s1)))).
Proof.
  intros p serverid Hget.
  assert (Hupd : forall b c s,
             GlesysRunner.update_server api fuel (with_check_mode b m) srv c s
             = GlesysRunner.update_server api fuel m srv c s)
    by reflexivity.
  assert (Hrun : forall b,
             GlesysRunner.run api fuel (with_check_mode b m) s0
             = GlesysRunner.run api fuel m s0).
  { intros b. unfold GlesysRunner.run. cbn [m_params with_check_mode].
    fold p. rewrite !(bind_ret _ _ _ _ _ Hget). reflexivity. }
  split; [ exact Hrun | ]. split; [ exact Hupd | ]. split.
  - intros locks w2 w3 Hstate Hlocks Hwait Hf Hdestroy.
    rewrite Hrun. unfold GlesysRunner.run. fold p. mret Hget.
    rewrite Hstate. change ("absent" =? "absent")%string with true.
    cbv beta iota zeta. fold serverid. rewrite !bind_assoc.
    on_state ltac:(fun s =>
      mret (wait_for_server_lock_spec api serverid locks fuel s w2
              Hwait Hlocks Hf)).
    rewrite ?bind_assoc. unfold GlesysApi.remove_server.
    on_state ltac:(fun s =>
      mret (request_ok (fun _ => EvDestroy serverid "false")
              (srv_destroy api serverid) s tt w3 Hdestroy)).
    rewrite extend_extend. reflexivity.
  - intros c details w Hd Hdiff Hne.
    apply (update_server_posts api fuel (with_check_mode true m) srv c s1
             details w Hd Hdiff Hne).
Qed.

Lemma C10_check_mode_guards_only_create_witness :
  let m := {| m_params := Cloud.task (Some "wps1") None (Some 2) None None
                            (Some 100) "absent";
              check_mode := true |} in
  check_mode m = true
  /\ fst (GlesysRunner.run Cloud.provider 3 m (Cloud.boot Cloud.one_locked))
     = Exit {| changed := true; res_server := None;
               res_msg := Some "Server wps1 deleted" |}
  /\ In (EvDestroy "wps1" "false")
        (log (snd (GlesysRunner.run Cloud.provider 3 m
                     (Cloud.boot Cloud.one_locked))))
  /\ In (EvEdit [(Cpucores, PInt 2); (Serverid, PStr "wps1")])
        (log (snd (GlesysRunner.update_server Cloud.provider 3 m
                     (AnsibleGlesysServer.init Cloud.web1) false
                     (extend (Cloud.boot Cloud.one_locked) Cloud.one_locked
                             [EvList; EvDetails "wps1"])))).
Proof.
  cbv zeta. split; [ reflexivity | ].
  destruct (C10_check_mode_guards_only_create Cloud.provider
              {| m_params := Cloud.task (Some "wps1") None (Some 2) None None
                               (Some 100) "absent";
                 check_mode := true |}
              (AnsibleGlesysServer.init Cloud.web1)
              (Cloud.boot Cloud.one_locked)
              (extend (Cloud.boot Cloud.one_locked) Cloud.one_locked
                      [EvList; EvDetails "wps1"])
              3 eq_refl) as (_ & _ & Hdel & Hedit).
  specialize (Hdel ["locked"; "locked"; "running"] Cloud.one Cloud.empty
                   eq_refl eq_refl eq_refl ltac:(simpl; lia) eq_refl).
  specialize (Hedit false Cloud.web1 Cloud.one_locked eq_refl eq_refl
                    ltac:(discriminate)).
  split; [ | split ].
  - exact (f_equal fst Hdel).
  - refine (eq_ind_r (fun r => In _ (log (snd r))) _ Hdel).
    simpl. tauto.
  - exact Hedit.
Defined.

(** C2 fails on the code.  On a server whose bandwidth cannot be edited a
    difference in bandwidth alone posts nothing and reports no change, as
    the claim says; but once the core count differs too, the bandwidth is
    posted to [server/edit] along with it. *)
Theorem C2_bandwidth_posted_when_not_editable :
  let alone := {| m_params := Cloud.task (Some "wps1")
                                (Some "host01.example.com") (Some 1)
                                (Some 2048) (Some 20) (Some 200) "present";
                  check_mode := false |} in
  let both := {| m_params := Cloud.task (Some "wps1")
                               (Some "host01.example.com") (Some 2)
                               (Some 2048) (Some 20) (Some 200) "present";
                 check_mode := false |} in
  let r1 := GlesysRunner.run Cloud.provider 3 alone (Cloud.boot Cloud.one) in
  let r2 := GlesysRunner.run Cloud.provider 3 both (Cloud.boot Cloud.one) in
  sv_editbandwidth Cloud.web1 = "no"
  /\ filter is_mutation (log (snd r1)) = []
  /\ (exists r, fst r1 = Exit r /\ changed r = false)
  /\ filter is_mutation (log (snd r2))
     = [EvEdit [(Cpucores, PInt 2); (Bandwidth, PInt 200);
                (Serverid, PStr "wps1")]].
Proof.
  cbv zeta. split; [ reflexivity | ]. split; [ reflexivity | ].
  split; [ | reflexivity ].
  eexists. split; reflexivity.
Qed.

(** C1 fails on the code.  A task that names the server and a disk size,
    and leaves the core count unset, is run twice against a provider that
    changes nothing on its own.  The second run posts nothing and leaves the
    provider as it was, and still reports [changed=True]. *)
Theorem C1_second_run_reports_changed :
  let m := {| m_params := Cloud.task (Some "wps1") None None None (Some 40)
                            (Some 100) "present";
              check_mode := false |} in
  let first := GlesysRunner.run Cloud.provider 3 m (Cloud.boot Cloud.one) in
  let second := GlesysRunner.run Cloud.provider 3 m (snd first) in
  (exists r, fst first = Exit r /\ changed r = true)
  /\ filter is_mutation (added (Cloud.boot Cloud.one) (snd first))
     = [EvEdit [(Disksize, PInt 40); (Serverid, PStr "wps1")]]
  /\ filter is_mutation (added (snd first) (snd second)) = []
  /\ cloud (snd second) = cloud (snd first)
  /\ (exists r, fst second = Exit r /\ changed r = true).
Proof.
  cbv zeta. split; [ eexists; split; reflexivity | ].
  split; [ reflexivity | ]. split; [ reflexivity | ].
  split; [ reflexivity | ].
  eexists. split; reflexivity.
Qed.

(** ** A server that already matches *)

(** With state [present], when the server is found and the condition of
    [update_server] finds nothing to change, [run] posts nothing and exits
    with [changed=False]. *)
Lemma run_present_matching {W} (api : Provider W) (m : module) (srv : server)
      (s0 s1 : st W) (details final : snapshot) (w2 w3 w4 w5 : W)
      (settling : list string) (seen : string) (fuel : nat) :
  let p := m_params m in
  let serverid := AnsibleGlesysServer.serverid srv in
  p_state p = "present" ->
  GlesysApi.get_server api (p_serverid p) (p_hostname p) s0
  = (Ret (Some srv), s1) ->
  srv_details api serverid (cloud s1) = (Ok details, w2) ->
  GlesysRunner.differs details p = false ->
  answers api serverid settling w2 = Some w3 ->
  waits_for unlocked settling = true ->
  (if p_wait p then srv_status api serverid w3 = (Ok seen, w4)
   else w4 = w3) ->
  srv_details api serverid w4 = (Ok final, w5) ->
  (1 <= fuel)%nat ->
  (List.length settling <= S fuel)%nat ->
  GlesysRunner.run api fuel m s0
  = (Exit {| changed := false;
             res_server :=
               Some {| properties := final;
                       ipaddress :=
                         Some (GlesysRunner.derive_ipaddress
                                 (sv_iplist (properties srv))) |};
             res_msg := None |},
     extend s1 w5
       ([EvDetails serverid]
          ++ lock_trace serverid settling
          ++ (if p_wait p then state_trace serverid [seen] else [])
          ++ [EvDetails serverid])%list).
Proof.
  intros p serverid Hstate Hget Hd Hsame Hsettle Hsettling Hseen Hfinal
         Hfuel Hf.
  unfold GlesysRunner.run. fold p. mret Hget. rewrite Hstate.
  change ("present" =? "absent")%string with false.
  change ("present" =? "present")%string with true.
  change ("present" =? "rebooted")%string with false.
  cbv beta iota zeta. rewrite bind_ret_l, !bind_assoc.
  mret (update_server_matching api fuel m srv false s1 details w2 Hd Hsame).
  fold serverid. rewrite !bind_assoc.
  on_state ltac:(fun s =>
    mret (wait_for_server_lock_spec api serverid settling fuel s w3
            Hsettling Hsettle Hf)).
  rewrite extend_extend, bind_ret_l. cbv beta iota.
  unfold GlesysRunner.the_server.
  assert (Hlast :
           forall s : st W,
             cloud s = w4 ->
             bind (AnsibleGlesysServer.update api
                     {| properties := properties srv;
                        ipaddress :=
                          Some (GlesysRunner.derive_ipaddress
                                  (sv_iplist (properties srv))) |})
                  (fun s2 =>
                     exit_json
                       {| changed := false;
                          res_server := Some (AnsibleGlesysServer.to_json s2);
                          res_msg := None |}) s
             = (Exit {| changed := false;
                        res_server :=
                          Some {| properties := final;
                                  ipaddress :=
                                    Some (GlesysRunner.derive_ipaddress
                                            (sv_iplist (properties srv))) |};
                        res_msg := None |} : outcome unit,
                extend s w5 [EvDetails serverid])).
  { intros s Hs. unfold AnsibleGlesysServer.update. rewrite bind_assoc.
    change (AnsibleGlesysServer.serverid
              {| properties := properties srv;
                 ipaddress :=
                   Some (GlesysRunner.derive_ipaddress
                           (sv_iplist (properties srv))) |})
      with serverid.
    rewrite <- Hs in Hfinal.
    rewrite (bind_ret _ _ _ _ _ (request_ok _ _ s final w5 Hfinal)).
    reflexivity. }
  destruct (p_wait p).
  - rewrite bind_assoc, bind_ret_l.
    change (AnsibleGlesysServer.serverid
              {| properties := properties srv;
                 ipaddress :=
                   Some (GlesysRunner.derive_ipaddress
                           (sv_iplist (properties srv))) |})
      with serverid.
    destruct fuel as [ | fuel]; [ lia | ].
    on_state ltac:(fun s =>
      mret (wait_for_server_state_present api serverid fuel s seen w4
              Hseen)).
    rewrite extend_extend, bind_ret_l, Hlast by reflexivity.
    rewrite extend_extend. now rewrite <- !app_assoc.
  - subst w4. rewrite !bind_ret_l, Hlast by reflexivity.
    rewrite extend_extend. now rewrite <- !app_assoc.
Qed.

(** ** What a computation adds to the log, and how it ends *)

Section Emission.
Context {W : Type} (api : Provider W) (P : event -> Prop).

Lemma emits_ret {A} (a : A) : emits P (ret a : M W A).
Proof. intros s. exists []. simpl. now rewrite app_nil_r. Qed.

Lemma emits_stop {A} (o : outcome A) : emits P (fun s : st W => (o, s)).
Proof. intros s. exists []. simpl. now rewrite app_nil_r. Qed.

Lemma emits_bind {A B} (c : M W A) (k : A -> M W B) :
  emits P c -> (forall a, emits P (k a)) -> emits P (bind c k).
Proof.
  intros Hc Hk s. unfold bind. destruct (Hc s) as (evs & Hevs & Hall).
  destruct (c s) as [[a | r | t | e | ] s']; simpl in Hevs;
    try (exists evs; split; [ exact Hevs | exact Hall ]).
  destruct (Hk a s') as (evs' & Hevs' & Hall').
  exists (evs ++ evs')%list. split.
  - rewrite Hevs', Hevs. now rewrite app_assoc.
  - apply Forall_app. now split.
Qed.

(** What follows a computation that never returns is never run. *)
Lemma emits_bind_final {A B} (c : M W A) (k : A -> M W B) :
  emits P c -> final c -> emits P (bind c k).
Proof.
  intros Hc Hf s. unfold bind. destruct (Hc s) as (evs & Hevs & Hall).
  specialize (Hf s).
  destruct (c s) as [[a | r | t | e | ] s']; simpl in *;
    try (exists evs; split; [ exact Hevs | exact Hall ]).
  now contradiction (Hf a).
Qed.

Lemma emits_request {A} (e : reply A -> event) (f : W -> reply A * W) :
  (forall r, P (e r)) -> emits P (request e f).
Proof.
  intros He s. unfold request. destruct (f (cloud s)) as [[a | t] w];
    eexists; (split; [ reflexivity | ]); repeat constructor; apply He.
Qed.

Lemma emits_if {A} (b : bool) (c1 c2 : M W A) :
  emits P c1 -> emits P c2 -> emits P (if b then c1 else c2).
Proof. now destruct b. Qed.

(** [P] holds of every event that is not a create, an edit or a destroy. *)
Hypothesis reads : forall e, is_mutation e = false -> P e.

Lemma emits_sleep n : emits P (GlesysRunner.sleep api n).
Proof.
  intros s. eexists. split; [ reflexivity | ].
  repeat constructor. now apply reads.
Qed.

Lemma emits_emit line : emits P (emit (EvPrint line) : M W unit).
Proof.
  intros s. eexists. split; [ reflexivity | ].
  repeat constructor. now apply reads.
Qed.

Lemma emits_generate_temp_password length :
  emits P (generate_temp_password length : M W string).
Proof.
  unfold generate_temp_password. apply emits_if; [ apply emits_stop | ].
  apply emits_bind; [ | intros; apply emits_ret ].
  intros s. eexists. split; [ reflexivity | ].
  repeat constructor. now apply reads.
Qed.

Lemma emits_get_server_status serverid :
  emits P (GlesysApi.get_server_status api serverid).
Proof. apply emits_request. intros r. now apply reads. Qed.

Lemma emits_lock_loop fuel serverid :
  forall a, emits P (GlesysRunner.lock_loop api fuel serverid a).
Proof.
  induction fuel as [ | fuel IH]; intros a; simpl;
    destruct (a =? "locked")%string; try apply emits_ret;
    try apply (emits_stop OutOfFuel).
  apply emits_bind; [ apply emits_sleep | intros _ ].
  apply emits_bind; [ apply emits_get_server_status | exact IH ].
Qed.

Lemma emits_wait_for_server_lock fuel serverid :
  emits P (GlesysRunner.wait_for_server_lock api fuel serverid).
Proof.
  apply emits_bind; [ apply emits_get_server_status | apply emits_lock_loop ].
Qed.

Lemma emits_wait_for_server_state fuel serverid target :
  emits P (GlesysRunner.wait_for_server_state api fuel serverid target).
Proof.
  induction fuel as [ | fuel IH]; simpl; [ apply (emits_stop OutOfFuel) | ].
  apply emits_bind; [ apply emits_get_server_status | intros a ].
  apply emits_bind; [ apply emits_emit | intros _ ].
  repeat (apply emits_if; [ apply emits_ret | ]).
  apply emits_bind; [ apply emits_sleep | intros _; exact IH ].
Qed.

Lemma emits_update (s : server) : emits P (AnsibleGlesysServer.update api s).
Proof.
  apply emits_bind; [ | intros; apply emits_ret ].
  apply emits_request. intros r. now apply reads.
Qed.

Lemma emits_find serverid hostname :
  emits P (GlesysApi.find api serverid hostname).
Proof.
  unfold GlesysApi.find. apply emits_if; [ apply emits_ret | ].
  apply emits_bind.
  - apply emits_bind; [ | intros; apply emits_ret ].
    apply emits_request. intros r. now apply reads.
  - intros servers. destruct (find _ servers); apply emits_ret.
Qed.

Lemma emits_get_server serverid hostname :
  emits P (GlesysApi.get_server api serverid hostname).
Proof.
  apply emits_bind; [ apply emits_find | intros [s | ] ].
  - apply emits_bind; [ apply emits_update | intros; apply emits_ret ].
  - apply emits_ret.
Qed.

Lemma emits_the_server attr (s : option server) :
  emits P (GlesysRunner.the_server attr s : M W server).
Proof. destruct s; [ apply emits_ret | apply emits_stop ]. Qed.

Lemma emits_runner_create_server (m : module) :
  (check_mode m = false -> forall p, P (EvCreate p)) ->
  emits P (GlesysRunner.create_server api m).
Proof.
  intros Hc. unfold GlesysRunner.create_server.
  destruct (check_mode m).
  - apply emits_bind_final; [ apply emits_stop | ].
    intros s a. discriminate.
  - apply emits_bind; [ apply emits_ret | intros _ ].
    apply emits_bind; [ | intros; apply emits_ret ].
    unfold GlesysApi.create_server.
    apply emits_bind.
    + apply emits_if;
        [ apply emits_generate_temp_password | apply emits_ret ].
    + intros pw. apply emits_request. intros r. now apply Hc.
Qed.

Lemma emits_runner_update_server fuel (m : module) (s : server) c :
  (forall d, P (EvEdit d)) ->
  emits P (GlesysRunner.update_server api fuel m s c).
Proof.
  intros He. unfold GlesysRunner.update_server.
  apply emits_bind.
  { apply emits_request. intros r. now apply reads. }
  intros details. apply emits_if; [ | apply emits_ret ].
  apply emits_bind.
  { unfold GlesysApi.update_server.
    apply emits_if; [ apply emits_ret | ].
    apply emits_bind; [ | intros; apply emits_ret ].
    apply emits_request. intros r. apply He. }
  intros [c' json].
  apply emits_bind; [ apply emits_update | intros s' ].
  apply emits_bind; [ | intros; apply emits_ret ].
  apply emits_if; [ apply emits_wait_for_server_lock | apply emits_ret ].
Qed.

(** What [run] does once the [absent] block is behind it. *)
Lemma emits_run_after_absent fuel (m : module) (found : option server) :
  (check_mode m = false -> forall p, P (EvCreate p)) ->
  (forall d, P (EvEdit d)) ->
  forall k : unit -> M W unit,
    (forall u,
        k u
        = (let p := m_params m in
           let state := p_state p in
           bind
             (if (state =? "present")%string then
                bind
                  match found with
                  | None =>
                      bind (GlesysRunner.create_server api m)
                        (fun s =>
                           bind (GlesysRunner.wait_for_server_state api fuel
                                   (AnsibleGlesysServer.serverid s) "running")
                             (fun _ =>
                                bind (GlesysRunner.sleep api 1)
                                     (fun _ => ret (true, s))))
                  | Some s => GlesysRunner.update_server api fuel m s false
                  end
                  (fun x =>
                     match x with
                     | (changed, s) =>
                         bind (GlesysRunner.wait_for_server_lock api fuel
                                 (AnsibleGlesysServer.serverid s))
                           (fun _ =>
                              ret (Some changed,
                                   Some {| properties := properties s;
                                           ipaddress :=
                                             Some (GlesysRunner.derive_ipaddress
                                                     (sv_iplist
                                                        (properties s))) |}))
                     end)
              else ret (None, found))
             (fun x =>
                match x with
                | (changed, server) =>
                    bind
                      (if p_wait p then
                         let target_state := state in
                         let target_state :=
                           if (target_state =? "rebooted")%string
                           then "running" else target_state in
                         bind (GlesysRunner.the_server "serverid" server)
                           (fun s =>
                              GlesysRunner.wait_for_server_state api fuel
                                (AnsibleGlesysServer.serverid s) target_state)
                       else ret tt)
                      (fun _ =>
                         bind (GlesysRunner.the_server "update" server)
                           (fun s =>
                              bind (AnsibleGlesysServer.update api s)
                                (fun s =>
                                   match changed with
                                   | None =>
                                       raise
                                         (NameError
                                            "name 'changed' is not defined")
                                   | Some changed =>
                                       exit_json
                                         {| changed := changed;
                                            res_server :=
                                              Some
                                                (AnsibleGlesysServer.to_json s);
                                            res_msg := None |}
                                   end)))
                end))) ->
    forall u, emits P (k u).
Proof.
  intros Hc He k Hk u. rewrite Hk. cbv zeta.
  apply emits_bind.
  - apply emits_if; [ | apply emits_ret ].
    apply emits_bind.
    + destruct found as [s | ].
      * now apply emits_runner_update_server.
      * apply emits_bind; [ now apply emits_runner_create_server | intros s ].
        apply emits_bind; [ apply emits_wait_for_server_state | intros _ ].
        apply emits_bind; [ apply emits_sleep | intros; apply emits_ret ].
    + intros [c s].
      apply emits_bind;
        [ apply emits_wait_for_server_lock | intros; apply emits_ret ].
  - intros [c server].
    apply emits_bind.
    + apply emits_if; [ | apply emits_ret ].
      apply emits_bind;
        [ apply emits_the_server
        | intros; apply emits_wait_for_server_state ].
    + intros _. apply emits_bind; [ apply emits_the_server | intros s ].
      apply emits_bind; [ apply emits_update | intros s' ].
      destruct c; apply emits_stop.
Qed.
End Emission.

(** ** What a run never does *)

(** X1: unless the task asks for state [absent], [run] never posts a
    destroy, whatever the provider answers and however the run ends. *)
Theorem run_destroys_only_when_absent {W} (api : Provider W) (fuel : nat)
        (m : module) :
  (p_state (m_params m) =? "absent")%string = false ->
  emits (fun e => is_destroy e = false) (GlesysRunner.run api fuel m).
Proof.
  intros Hstate.
  assert (Hread : forall e, is_mutation e = false -> is_destroy e = false)
    by (intros []; simpl; congruence).
  unfold GlesysRunner.run. cbv zeta.
  apply emits_bind; [ now apply emits_get_server | intros found ].
  rewrite Hstate. apply emits_bind; [ apply emits_ret | ].
  apply (emits_run_after_absent api _ Hread fuel m found);
    [ reflexivity | reflexivity | reflexivity ].
Qed.

Lemma run_destroys_only_when_absent_witness :
  exists evs,
    log (snd (GlesysRunner.run Cloud.provider 3
                {| m_params := Cloud.task (Some "wps1") None (Some 2) None
                                 None (Some 100) "present";
                   check_mode := false |} (Cloud.boot Cloud.one)))
    = (log (Cloud.boot Cloud.one) ++ evs)%list
    /\ Forall (fun e => is_destroy e = false) evs.
Proof.
  apply (run_destroys_only_when_absent Cloud.provider 3
           {| m_params := Cloud.task (Some "wps1") None (Some 2) None
                            None (Some 100) "present";
              check_mode := false |}).
  reflexivity.
Defined.

(** X2: under check mode [run] never posts a create, whatever the state
    asked for and whatever the provider answers. *)
Theorem check_mode_never_creates {W} (api : Provider W) (fuel : nat)
        (m : module) :
  check_mode m = true ->
  emits (fun e => is_create e = false) (GlesysRunner.run api fuel m).
Proof.
  intros Hcheck.
  assert (Hread : forall e, is_mutation e = false -> is_create e = false)
    by (intros []; simpl; congruence).
  unfold GlesysRunner.run. cbv zeta.
  apply emits_bind; [ now apply emits_get_server | intros found ].
  apply emits_bind.
  - apply emits_if; [ | apply emits_ret ].
    destruct found as [s | ]; [ | apply emits_stop ].
    apply emits_bind; [ now apply emits_wait_for_server_lock | intros _ ].
    apply emits_bind; [ | intros; apply emits_stop ].
    apply emits_request. reflexivity.
  - apply (emits_run_after_absent api _ Hread fuel m found);
      [ congruence | reflexivity | reflexivity ].
Qed.

Lemma check_mode_never_creates_witness :
  exists evs,
    log (snd (GlesysRunner.run Cloud.provider 3
                {| m_params := Cloud.task None (Some "new.example.com") None
                                 None None (Some 100) "present";
                   check_mode := true |} (Cloud.boot Cloud.empty)))
    = (log (Cloud.boot Cloud.empty) ++ evs)%list
    /\ Forall (fun e => is_create e = false) evs.
Proof.
  apply (check_mode_never_creates Cloud.provider 3
           {| m_params := Cloud.task None (Some "new.example.com") None
                            None None (Some 100) "present";
              check_mode := true |}).
  reflexivity.
Defined.

Section Endings.
Context {W : Type} (api : Provider W).

Lemma final_exit_json {A} (r : result) : final (exit_json r : M W A).
Proof. intros s a. discriminate. Qed.

Lemma final_bind {A B} (c : M W A) (k : A -> M W B) :
  (forall a, final (k a)) -> final (bind c k).
Proof.
  intros Hk s b. unfold bind.
  destruct (c s) as [[a | r | t | e | ] s']; try discriminate. apply Hk.
Qed.
























End Endings.



(** X4: with state [absent] [run] never posts a create or an edit, even
    when the task also asks for another size. *)
Theorem run_absent_never_creates_or_edits {W} (api : Provider W)
        (fuel : nat) (m : module) :
  p_state (m_params m) = "absent" ->
  emits (fun e => is_create e = false /\ is_edit e = false)
        (GlesysRunner.run api fuel m).
Proof.
  intros Hstate.
  assert (Hread : forall e, is_mutation e = false ->
                            is_create e = false /\ is_edit e = false)
    by (intros []; simpl; intros H; split; congruence).
  unfold GlesysRunner.run. cbv zeta. rewrite Hstate.
  change ("absent" =? "absent")%string with true. cbv iota.
  apply emits_bind; [ now apply emits_get_server | intros found ].
  destruct found as [s | ].
  - apply emits_bind_final.
    + apply emits_bind;
        [ now apply emits_wait_for_server_lock | intros _ ].
      apply emits_bind; [ | intros; apply emits_stop ].
      apply emits_request. intros r. now split.
    + apply final_bind. intros _. apply final_bind. intros _.
      apply final_exit_json.
  - apply emits_bind_final; [ apply emits_stop | apply final_exit_json ].
Qed.

Lemma run_absent_never_creates_or_edits_witness :
  emits (fun e => is_create e = false /\ is_edit e = false)
        (GlesysRunner.run Cloud.provider 3
           {| m_params := Cloud.task (Some "wps1") None (Some 4) None
                            (Some 80) (Some 100) "absent";
              check_mode := false |}).
Proof.
  apply (run_absent_never_creates_or_edits Cloud.provider 3
           {| m_params := Cloud.task (Some "wps1") None (Some 4) None
                            (Some 80) (Some 100) "absent";
              check_mode := false |}).
  reflexivity.
Defined.

(** X5: asked to remove a server that the lookup does not find, [run]
    exits with [changed=False] and the message [Server already absent],
    and calls the provider no further. *)
Theorem run_absent_on_absent {W} (api : Provider W) (fuel : nat)
        (m : module) (s0 s1 : st W) :
  p_state (m_params m) = "absent" ->
  GlesysApi.get_server api (p_serverid (m_params m))
                       (p_hostname (m_params m)) s0 = (Ret None, s1) ->
  GlesysRunner.run api fuel m s0
  = (Exit {| changed := false; res_server := None;
             res_msg := Some "Server already absent" |}, s1).
Proof.
  intros Hstate Hget. unfold GlesysRunner.run. cbv zeta. mret Hget.
  rewrite Hstate. reflexivity.
Qed.

Lemma run_absent_on_absent_witness :
  GlesysRunner.run Cloud.provider 0
    {| m_params := Cloud.task (Some "wps7") None None None None (Some 100)
                     "absent";
       check_mode := false |} (Cloud.boot Cloud.one)
  = (Exit {| changed := false; res_server := None;
             res_msg := Some "Server already absent" |},
     extend (Cloud.boot Cloud.one) Cloud.one [EvList]).
Proof.
  apply (run_absent_on_absent Cloud.provider 0
           {| m_params := Cloud.task (Some "wps7") None None None None
                            (Some 100) "absent";
              check_mode := false |}); reflexivity.
Defined.

(** X6: when the provider refuses the list call of the lookup, [run] ends
    in [fail_json] with the provider's text after that one call, whatever
    the state asked for: nothing is retried and nothing else is called. *)
Theorem run_fails_when_lookup_refused {W} (api : Provider W) (fuel : nat)
        (m : module) (s : st W) (text : string) (w : W) :
  GlesysApi.neither (p_serverid (m_params m)) (p_hostname (m_params m))
  = false ->
  srv_list api (cloud s) = (HttpError text, w) ->
  GlesysRunner.run api fuel m s = (Fail text, extend s w [EvList]).
Proof.
  intros Hn Hl. unfold GlesysRunner.run, GlesysApi.get_server,
                  GlesysApi.find, GlesysApi.list_server.
  cbv zeta. rewrite Hn. rewrite !bind_assoc.
  unfold bind at 1.
  now rewrite (request_error (fun _ => EvList) (srv_list api) s text w Hl).
Qed.

Lemma run_fails_when_lookup_refused_witness :
  GlesysRunner.run refusing 3
    {| m_params := Cloud.task (Some "wps1") None None None None (Some 100)
                     "present";
       check_mode := false |} (Cloud.boot Cloud.one)
  = (Fail "Unauthorized", extend (Cloud.boot Cloud.one) Cloud.one [EvList]).
Proof.
  apply (run_fails_when_lookup_refused refusing 3
           {| m_params := Cloud.task (Some "wps1") None None None None
                            (Some 100) "present";
              check_mode := false |}); reflexivity.
Defined.

(** ** The lookup *)

Lemma pyval_eqb_str (a : string) (o : option string) :
  pyval_eqb (PStr a) (of_str o) = true <-> Some a = o.
Proof.
  destruct o as [b | ]; simpl.
  - rewrite String.eqb_eq. split; congruence.
  - split; discriminate.
Qed.

(** X7: given at least one of id and hostname, [find] lists the servers
    once and mutates nothing.  What it returns is one of the listed servers
    and carries the id or the hostname asked for; it returns [None] only
    when no listed server carries either. *)
Theorem find_sound_and_complete {W} (api : Provider W)
        (serverid hostname : option string) (s : st W)
        (data : list snapshot) (w : W) :
  GlesysApi.neither serverid hostname = false ->
  srv_list api (cloud s) = (Ok data, w) ->
  exists r,
    GlesysApi.find api serverid hostname s = (Ret r, extend s w [EvList])
    /\ match r with
       | Some srv =>
           In (properties srv) data
           /\ (Some (AnsibleGlesysServer.serverid srv) = serverid
               \/ Some (AnsibleGlesysServer.hostname srv) = hostname)
       | None =>
           forall d, In d data ->
                     Some (sv_serverid d) <> serverid
                     /\ Some (sv_hostname d) <> hostname
       end.
Proof.
  intros Hn Hl. unfold GlesysApi.find, GlesysApi.list_server.
  rewrite Hn, bind_assoc.
  mret (request_ok (fun _ => EvList) (srv_list api) s data w Hl).
  rewrite bind_ret_l.
  destruct (find _ (map AnsibleGlesysServer.init data)) as [srv | ] eqn:Eid.
  - exists (Some srv). split; [ reflexivity | ].
    apply find_some in Eid. destruct Eid as [Hin Hid].
    apply in_map_iff in Hin. destruct Hin as (d & <- & Hd).
    split; [ exact Hd | left ]. now apply pyval_eqb_str.
  - destruct (find (fun s0 => pyval_eqb (PStr (AnsibleGlesysServer.hostname s0))
                                (of_str hostname))
                   (map AnsibleGlesysServer.init data)) as [srv | ] eqn:Eh.
    + exists (Some srv). split; [ reflexivity | ].
      apply find_some in Eh. destruct Eh as [Hin Hh].
      apply in_map_iff in Hin. destruct Hin as (d & <- & Hd).
      split; [ exact Hd | right ]. now apply pyval_eqb_str.
    + exists None. split; [ reflexivity | ]. intros d Hd.
      assert (Hin : In (AnsibleGlesysServer.init d)
                       (map AnsibleGlesysServer.init data))
        by now apply in_map.
      pose proof (find_none _ _ Eid _ Hin) as H1.
      pose proof (find_none _ _ Eh _ Hin) as H2.
      unfold AnsibleGlesysServer.serverid, AnsibleGlesysServer.hostname,
        AnsibleGlesysServer.init in H1, H2. cbn [properties] in H1, H2.
      split; intros E; apply pyval_eqb_str in E; congruence.
Qed.

Lemma find_sound_and_complete_witness :
  exists r,
    GlesysApi.find Cloud.provider None (Some "host01.example.com")
                   (Cloud.boot Cloud.one)
    = (Ret r, extend (Cloud.boot Cloud.one) Cloud.one [EvList])
    /\ match r with
       | Some srv =>
           In (properties srv) [Cloud.web1]
           /\ (Some (AnsibleGlesysServer.serverid srv) = None
               \/ Some (AnsibleGlesysServer.hostname srv)
                  = Some "host01.example.com")
       | None =>
           forall d, In d [Cloud.web1] ->
                     Some (sv_serverid d) <> None
                     /\ Some (sv_hostname d) <> Some "host01.example.com"
       end.
Proof.
  apply (find_sound_and_complete Cloud.provider None
           (Some "host01.example.com") (Cloud.boot Cloud.one)
           [Cloud.web1] Cloud.one); reflexivity.
Defined.

(** X8: the id wins over the hostname.  When a listed server carries the
    id asked for, [find] returns a server with that id, also when another
    server, earlier in the list, carries the hostname asked for. *)
Theorem find_prefers_serverid {W} (api : Provider W)
        (serverid : string) (hostname : option string) (s : st W)
        (data : list snapshot) (w : W) (d : snapshot) :
  srv_list api (cloud s) = (Ok data, w) ->
  serverid <> "" ->
  In d data ->
  sv_serverid d = serverid ->
  exists srv,
    GlesysApi.find api (Some serverid) hostname s
    = (Ret (Some srv), extend s w [EvList])
    /\ AnsibleGlesysServer.serverid srv = serverid.
Proof.
  intros Hl Hne Hd Hid. unfold GlesysApi.find, GlesysApi.list_server.
  assert (Hn : GlesysApi.neither (Some serverid) hostname = false).
  { unfold GlesysApi.neither. simpl.
    destruct (String.eqb_spec serverid ""); [ contradiction | reflexivity ]. }
  rewrite Hn, bind_assoc.
  mret (request_ok (fun _ => EvList) (srv_list api) s data w Hl).
  rewrite bind_ret_l.
  destruct (find _ (map AnsibleGlesysServer.init data)) as [srv | ] eqn:Eid.
  - exists srv. split; [ reflexivity | ].
    apply find_some in Eid. destruct Eid as [_ E].
    apply pyval_eqb_str in E. now inversion E.
  - assert (Hin : In (AnsibleGlesysServer.init d)
                     (map AnsibleGlesysServer.init data))
      by now apply in_map.
    pose proof (find_none _ _ Eid _ Hin) as H.
    unfold AnsibleGlesysServer.serverid, AnsibleGlesysServer.init in H.
    cbn [properties of_str pyval_eqb] in H.
    rewrite Hid, String.eqb_refl in H. discriminate.
Qed.

Lemma find_prefers_serverid_witness :
  exists srv,
    GlesysApi.find Cloud.provider (Some "wps1") (Some "db.example.com")
                   (Cloud.boot two_servers)
    = (Ret (Some srv),
       extend (Cloud.boot two_servers) two_servers [EvList])
    /\ AnsibleGlesysServer.serverid srv = "wps1".
Proof.
  apply (find_prefers_serverid Cloud.provider "wps1"
           (Some "db.example.com") (Cloud.boot two_servers)
           [db2; Cloud.web1] two_servers Cloud.web1);
    [ reflexivity | discriminate | simpl; tauto | reflexivity ].
Defined.

(** X9: [get_server] only reads.  It calls the provider at most twice, the
    list and then the details of the server it found, and never posts. *)
Theorem get_server_reads_only {W} (api : Provider W)
        (serverid hostname : option string) (s : st W) :
  exists evs,
    log (snd (GlesysApi.get_server api serverid hostname s))
    = (log s ++ evs)%list
    /\ (evs = [] \/ evs = [EvList]
        \/ exists found, evs = [EvList; EvDetails found]).
Proof.
  unfold GlesysApi.get_server, GlesysApi.find, GlesysApi.list_server.
  destruct (GlesysApi.neither serverid hostname).
  { exists []. simpl. rewrite app_nil_r. tauto. }
  rewrite !bind_assoc. unfold bind at 1. unfold request at 1.
  destruct (srv_list api (cloud s)) as [[data | t] w].
  2: { exists [EvList]. simpl. tauto. }
  rewrite bind_ret_l.
  assert (Hsome : forall srv,
             exists evs,
               log (snd (bind (ret (Some srv))
                           (fun o =>
                              match o with
                              | Some x =>
                                  bind (AnsibleGlesysServer.update api x)
                                       (fun s' => ret (Some s'))
                              | None => ret None
                              end)
                           (record EvList (with_cloud w s))))
               = (log s ++ evs)%list
               /\ (evs = [] \/ evs = [EvList]
                   \/ exists found, evs = [EvList; EvDetails found])).
  { intros srv. rewrite bind_ret_l.
    unfold AnsibleGlesysServer.update. rewrite bind_assoc.
    unfold bind at 1. unfold request.
    exists [EvList; EvDetails (AnsibleGlesysServer.serverid srv)].
    split; [ | right; right; eexists; reflexivity ].
    cbn [cloud record with_cloud].
    destruct (srv_details api _ w) as [[det | t] w']; simpl;
      now rewrite <- app_assoc. }
  destruct (find _ (map AnsibleGlesysServer.init data)) as [srv | ].
  - apply Hsome.
  - rewrite bind_ret_l.
    destruct (find _ (map AnsibleGlesysServer.init data)) as [srv | ].
    + apply Hsome.
    + exists [EvList]. simpl. tauto.
Qed.

(** ** The wait loops, in general *)

Lemma polls_app (l1 l2 : list event) :
  polls (l1 ++ l2) = (polls l1 + polls l2)%nat.
Proof. unfold polls. now rewrite filter_app, length_app. Qed.

Lemma sleeps_app (l1 l2 : list event) :
  sleeps (l1 ++ l2) = (sleeps l1 ++ sleeps l2)%list.
Proof. unfold sleeps. now rewrite flat_map_app. Qed.

Lemma poll_trace_counts (per : string -> list event) (l : list string) :
  (forall a, polls (per a) = 1%nat) ->
  (forall a, sleeps (per a) = []) ->
  polls (poll_trace per l) = List.length l
  /\ sleeps (poll_trace per l) = repeat 1 (Nat.pred (List.length l)).
Proof.
  intros Hp Hs. induction l as [ | a l [IHp IHs]]; [ now split | ].
  destruct l as [ | b l].
  - simpl. now rewrite Hp, Hs.
  - change (poll_trace per (a :: b :: l))
      with (per a ++ EvSleep 1 :: poll_trace per (b :: l))%list.
    rewrite polls_app, sleeps_app, Hp, Hs.
    change (EvSleep 1 :: poll_trace per (b :: l))
      with ([EvSleep 1] ++ poll_trace per (b :: l))%list.
    rewrite polls_app, sleeps_app, IHp, IHs. now split.
Qed.

(** X10: while the provider answers [locked], the lock wait polls again
    after one second; at the first other answer it returns.  Over a
    sequence of answers that are all [locked] but the last it polls once per
    answer and sleeps one second between two polls. *)
Theorem lock_wait_polls_once_per_answer {W} (api : Provider W)
        (serverid : string) (l : list string) (fuel : nat) (s : st W)
        (w' : W) :
  waits_for unlocked l = true ->
  answers api serverid l (cloud s) = Some w' ->
  (List.length l <= S fuel)%nat ->
  GlesysRunner.wait_for_server_lock api fuel serverid s
  = (Ret tt, extend s w' (lock_trace serverid l))
  /\ polls (lock_trace serverid l) = List.length l
  /\ sleeps (lock_trace serverid l) = repeat 1 (Nat.pred (List.length l)).
Proof.
  intros Hw Ha Hf. split; [ now apply wait_for_server_lock_spec | ].
  now apply poll_trace_counts.
Qed.

Lemma lock_wait_polls_once_per_answer_witness :
  GlesysRunner.wait_for_server_lock Cloud.provider 2 "wps1"
    (Cloud.boot Cloud.one_locked)
  = (Ret tt,
     extend (Cloud.boot Cloud.one_locked) Cloud.one
            (lock_trace "wps1" ["locked"; "locked"; "running"]))
  /\ polls (lock_trace "wps1" ["locked"; "locked"; "running"]) = 3%nat
  /\ sleeps (lock_trace "wps1" ["locked"; "locked"; "running"]) = [1; 1].
Proof.
  apply (lock_wait_polls_once_per_answer Cloud.provider "wps1"
           ["locked"; "locked"; "running"] 2 (Cloud.boot Cloud.one_locked)
           Cloud.one); [ reflexivity | reflexivity | simpl; lia ].
Defined.

(** X11: with a target other than [present], [wait_for_server_state]
    polls, prints the state and sleeps one second until the answer is the
    target: over a sequence of answers of which only the last is the target
    it polls once per answer. *)
Theorem state_wait_polls_once_per_answer {W} (api : Provider W)
        (target serverid : string) (l : list string) (fuel : nat)
        (s : st W) (w' : W) :
  target <> "present" ->
  waits_for (String.eqb target) l = true ->
  answers api serverid l (cloud s) = Some w' ->
  (List.length l <= fuel)%nat ->
  GlesysRunner.wait_for_server_state api fuel serverid target s
  = (Ret tt, extend s w' (state_trace serverid l))
  /\ polls (state_trace serverid l) = List.length l
  /\ sleeps (state_trace serverid l) = repeat 1 (Nat.pred (List.length l)).
Proof.
  intros Hp Hw Ha Hf. split.
  - apply wait_for_server_state_spec; try assumption.
    now apply String.eqb_neq.
  - now apply poll_trace_counts.
Qed.

Lemma state_wait_polls_once_per_answer_witness :
  GlesysRunner.wait_for_server_state Cloud.provider 3 "wps1" "running"
    (Cloud.boot Cloud.one_locked)
  = (Ret tt,
     extend (Cloud.boot Cloud.one_locked) Cloud.one
            (state_trace "wps1" ["locked"; "locked"; "running"]))
  /\ polls (state_trace "wps1" ["locked"; "locked"; "running"]) = 3%nat
  /\ sleeps (state_trace "wps1" ["locked"; "locked"; "running"]) = [1; 1].
Proof.
  apply (state_wait_polls_once_per_answer Cloud.provider "running" "wps1"
           ["locked"; "locked"; "running"] 3 (Cloud.boot Cloud.one_locked)
           Cloud.one);
    [ discriminate | reflexivity | reflexivity | simpl; lia ].
Defined.

(** With target [present], [wait_for_server_state] returns after its
    first poll whatever state the provider reports, [locked] included, and
    does not sleep. *)
Lemma state_wait_present_takes_any_state {W} (api : Provider W)
        (serverid : string) (fuel : nat) (s : st W) (a : string) (w : W) :
  srv_status api serverid (cloud s) = (Ok a, w) ->
  GlesysRunner.wait_for_server_state api (S fuel) serverid "present" s
  = (Ret tt,
     extend s w [EvStatus serverid (Ok a); EvPrint ("state: " ++ a)]).
Proof. apply wait_for_server_state_present. Qed.

Lemma state_wait_present_takes_any_state_witness :
  GlesysRunner.wait_for_server_state Cloud.provider 1 "wps1" "present"
    (Cloud.boot Cloud.one_locked)
  = (Ret tt,
     extend (Cloud.boot Cloud.one_locked)
            {| Cloud.servers := [Cloud.web1]; Cloud.busy := ["locked"] |}
            [EvStatus "wps1" (Ok "locked"); EvPrint "state: locked"]).
Proof.
  apply (state_wait_present_takes_any_state Cloud.provider "wps1" 0
           (Cloud.boot Cloud.one_locked) "locked"
           {| Cloud.servers := [Cloud.web1]; Cloud.busy := ["locked"] |}).
  reflexivity.
Defined.

Section Unbounded.
Context {W : Type} (api : Provider W) (serverid : string).

Lemma lock_loop_exhausts :
  (forall w, exists w', srv_status api serverid w = (Ok "locked", w')) ->
  forall fuel (s : st W),
  exists evs,
    fst (GlesysRunner.lock_loop api fuel serverid "locked" s) = OutOfFuel
    /\ log (snd (GlesysRunner.lock_loop api fuel serverid "locked" s))
       = (log s ++ evs)%list
    /\ polls evs = fuel /\ sleeps evs = repeat 1 fuel.
Proof.
  intros Hlocked. induction fuel as [ | fuel IH]; intros s.
  - exists []. simpl. rewrite app_nil_r. now repeat split.
  - cbn [GlesysRunner.lock_loop].
    change ("locked" =? "locked")%string with true. cbv iota.
    mret (sleep_spec api 1 s).
    destruct (Hlocked (elapse api 1 (cloud s))) as [w' Hs].
    on_state ltac:(fun s0 => mret (status_spec api serverid s0 "locked" w' Hs)).
    rewrite extend_extend.
    destruct (IH (extend s w'
                    ([EvSleep 1] ++ [EvStatus serverid (Ok "locked")])))
      as (evs & Ho & Hl & Hp & Hsl).
    exists ([EvSleep 1; EvStatus serverid (Ok "locked")] ++ evs)%list.
    split; [ exact Ho | ]. split.
    + rewrite Hl. cbn [log extend]. now rewrite <- !app_assoc.
    + rewrite polls_app, sleeps_app, Hp, Hsl. now split.
Qed.

Lemma state_loop_exhausts (target : string) :
  (target =? "present")%string = false ->
  (forall w, exists a w',
        srv_status api serverid w = (Ok a, w')
        /\ (target =? a)%string = false) ->
  forall fuel (s : st W),
  exists evs,
    fst (GlesysRunner.wait_for_server_state api fuel serverid target s)
    = OutOfFuel
    /\ log (snd (GlesysRunner.wait_for_server_state api fuel serverid
                   target s))
       = (log s ++ evs)%list
    /\ polls evs = fuel /\ sleeps evs = repeat 1 fuel.
Proof.
  intros Hp Hnever. induction fuel as [ | fuel IH]; intros s.
  - exists []. simpl. rewrite app_nil_r. now repeat split.
  - cbn [GlesysRunner.wait_for_server_state].
    destruct (Hnever (cloud s)) as (a & w' & Hs & Ha).
    mret (status_spec api serverid s a w' Hs).
    on_state ltac:(fun s0 => mret (emit_spec (EvPrint ("state: " ++ a)) s0)).
    rewrite extend_extend, Hp, Ha.
    on_state ltac:(fun s0 => mret (sleep_spec api 1 s0)).
    rewrite extend_extend.
    match goal with
    | |- context [GlesysRunner.wait_for_server_state _ _ _ _ ?s0] =>
        destruct (IH s0) as (evs & Ho & Hl & Hpo & Hsl)
    end.
    eexists. split; [ exact Ho | ]. split.
    + rewrite Hl. cbn [log extend]. rewrite <- !app_assoc. reflexivity.
    + rewrite !polls_app, !sleeps_app, Hpo, Hsl. now split.
Qed.
End Unbounded.

(** X12: the lock wait has no limit of its own.  Against a provider that
    keeps answering [locked] it never returns: whatever number of polls it
    is allowed, it uses them all, one second apart, and is still waiting.
    [wait_timeout] is not consulted. *)
Theorem lock_wait_is_unbounded {W} (api : Provider W) (serverid : string) :
  (forall w, exists w', srv_status api serverid w = (Ok "locked", w')) ->
  forall fuel (s : st W),
  exists evs,
    fst (GlesysRunner.wait_for_server_lock api fuel serverid s) = OutOfFuel
    /\ log (snd (GlesysRunner.wait_for_server_lock api fuel serverid s))
       = (log s ++ evs)%list
    /\ polls evs = S fuel /\ sleeps evs = repeat 1 fuel.
Proof.
  intros Hlocked fuel s. unfold GlesysRunner.wait_for_server_lock.
  destruct (Hlocked (cloud s)) as [w' Hs].
  mret (status_spec api serverid s "locked" w' Hs).
  destruct (lock_loop_exhausts api serverid Hlocked fuel
              (extend s w' [EvStatus serverid (Ok "locked")]))
    as (evs & Ho & Hl & Hp & Hsl).
  exists ([EvStatus serverid (Ok "locked")] ++ evs)%list.
  split; [ exact Ho | ]. split.
  - rewrite Hl. cbn [log extend]. now rewrite <- app_assoc.
  - rewrite polls_app, sleeps_app, Hp, Hsl. now split.
Qed.

Lemma lock_wait_is_unbounded_witness :
  exists evs,
    fst (GlesysRunner.wait_for_server_lock jammed 600 "wps1"
           (Cloud.boot Cloud.one)) = OutOfFuel
    /\ log (snd (GlesysRunner.wait_for_server_lock jammed 600 "wps1"
                   (Cloud.boot Cloud.one)))
       = (log (Cloud.boot Cloud.one) ++ evs)%list
    /\ polls evs = 601%nat /\ sleeps evs = repeat 1 600.
Proof.
  apply (lock_wait_is_unbounded jammed "wps1").
  intros w. exists w. reflexivity.
Defined.

(** X13: neither has [wait_for_server_state] a limit of its own.  With a
    target other than [present], against a provider that never reports the
    target, it uses every poll it is allowed and is still waiting. *)
Theorem state_wait_is_unbounded {W} (api : Provider W)
        (serverid target : string) :
  target <> "present" ->
  (forall w, exists a w',
        srv_status api serverid w = (Ok a, w') /\ a <> target) ->
  forall fuel (s : st W),
  exists evs,
    fst (GlesysRunner.wait_for_server_state api fuel serverid target s)
    = OutOfFuel
    /\ log (snd (GlesysRunner.wait_for_server_state api fuel serverid
                   target s))
       = (log s ++ evs)%list
    /\ polls evs = fuel /\ sleeps evs = repeat 1 fuel.
Proof.
  intros Hp Hnever. apply state_loop_exhausts.
  - now apply String.eqb_neq.
  - intros w. destruct (Hnever w) as (a & w' & Hs & Ha).
    exists a, w'. split; [ exact Hs | ].
    apply String.eqb_neq. congruence.
Qed.

Lemma state_wait_is_unbounded_witness :
  exists evs,
    fst (GlesysRunner.wait_for_server_state jammed 600 "wps1" "running"
           (Cloud.boot Cloud.one)) = OutOfFuel
    /\ log (snd (GlesysRunner.wait_for_server_state jammed 600 "wps1"
                   "running" (Cloud.boot Cloud.one)))
       = (log (Cloud.boot Cloud.one) ++ evs)%list
    /\ polls evs = 600%nat /\ sleeps evs = repeat 1 600.
Proof.
  apply (state_wait_is_unbounded jammed "wps1" "running");
    [ discriminate | ].
  intros w. exists "locked", w. split; [ reflexivity | discriminate ].
Defined.

Section Refusal.
Context {W : Type} (api : Provider W) (serverid text : string).

Lemma lock_loop_refused :
  forall n fuel (s : st W) w',
    refused_after api serverid n text (elapse api 1 (cloud s)) = Some w' ->
    (n < fuel)%nat ->
    GlesysRunner.lock_loop api fuel serverid "locked" s
    = (Fail text,
       extend s w' (EvSleep 1 :: locked_then serverid n (HttpError text))).
Proof.
  induction n as [ | n IH]; intros fuel s w' Hr Hf;
    (destruct fuel as [ | fuel]; [ lia | ]);
    cbn [GlesysRunner.lock_loop];
    change ("locked" =? "locked")%string with true; cbv iota;
    mret (sleep_spec api 1 s); cbn [refused_after] in Hr;
    destruct (srv_status api serverid (elapse api 1 (cloud s)))
      as [[a | t] w1] eqn:Hs; try discriminate.
  - destruct (String.eqb_spec t text) as [-> | ]; [ | discriminate ].
    inversion Hr; subst w1. unfold bind, GlesysApi.get_server_status.
    match goal with
    | |- context [request _ _ ?s0] =>
        rewrite (request_error (EvStatus serverid) (srv_status api serverid)
                   s0 text w' Hs)
    end.
    now rewrite extend_extend.
  - destruct (String.eqb_spec a "locked") as [-> | ]; [ | discriminate ].
    on_state ltac:(fun s0 =>
      mret (status_spec api serverid s0 "locked" w1 Hs)).
    rewrite extend_extend.
    match goal with
    | |- GlesysRunner.lock_loop _ _ _ _ ?s0 = _ =>
        rewrite (IH fuel s0 w' Hr ltac:(lia))
    end.
    now rewrite extend_extend.
Qed.
End Refusal.

(** X14: the lock wait does not retry a refused poll.  When the provider
    answers [locked] [n] times and refuses the next poll, the wait ends in
    [fail_json] with the provider's text right after that poll. *)
Theorem lock_wait_fails_on_refused_poll {W} (api : Provider W)
        (serverid text : string) (n fuel : nat) (s : st W) (w' : W) :
  refused_after api serverid n text (cloud s) = Some w' ->
  (n <= fuel)%nat ->
  GlesysRunner.wait_for_server_lock api fuel serverid s
  = (Fail text, extend s w' (locked_then serverid n (HttpError text))).
Proof.
  intros Hr Hf. unfold GlesysRunner.wait_for_server_lock.
  destruct n as [ | n]; cbn [refused_after] in Hr;
    destruct (srv_status api serverid (cloud s)) as [[a | t] w1] eqn:Hs;
    try discriminate.
  - destruct (String.eqb_spec t text) as [-> | ]; [ | discriminate ].
    inversion Hr; subst w1. unfold bind, GlesysApi.get_server_status.
    now rewrite (request_error (EvStatus serverid)
                   (srv_status api serverid) s text w' Hs).
  - destruct (String.eqb_spec a "locked") as [-> | ]; [ | discriminate ].
    mret (status_spec api serverid s "locked" w1 Hs).
    match goal with
    | |- GlesysRunner.lock_loop _ _ _ _ ?s0 = _ =>
        rewrite (lock_loop_refused api serverid text n fuel s0 w' Hr
                   ltac:(lia))
    end.
    now rewrite extend_extend.
Qed.

Lemma lock_wait_fails_on_refused_poll_witness :
  GlesysRunner.wait_for_server_lock failing 5 "wps1"
    (Cloud.boot Cloud.one_locked)
  = (Fail "Service unavailable",
     extend (Cloud.boot Cloud.one_locked) Cloud.one
       [EvStatus "wps1" (Ok "locked"); EvSleep 1;
        EvStatus "wps1" (Ok "locked"); EvSleep 1;
        EvStatus "wps1" (HttpError "Service unavailable")]).
Proof.
  apply (lock_wait_fails_on_refused_poll failing "wps1"
           "Service unavailable" 2 5 (Cloud.boot Cloud.one_locked)
           Cloud.one); [ reflexivity | lia ].
Defined.

(** ** The condition of the update and the fields it would send *)

Lemma pyval_eqb_sym (a b : pyval) : pyval_eqb a b = pyval_eqb b a.
Proof.
  destruct a, b; simpl; try reflexivity;
    [ apply Z.eqb_sym | apply String.eqb_sym ].
Qed.

(** X15: the condition of [update_server] misses no field that would be
    sent.  When the edit dictionary for the found server holds a field
    other than the bandwidth, or holds the bandwidth and the server's
    bandwidth can be edited, the condition holds of that server. *)
Theorem differs_whenever_sendable (srv : server) (p : params)
        (k : field) (v : pyval) :
  In (k, v) (GlesysApi.edit_fields srv (GlesysRunner.edit_request p)) ->
  k <> Bandwidth \/ sv_editbandwidth (properties srv) = "yes" ->
  GlesysRunner.differs (properties srv) p = true.
Proof.
  intros Hin Hk. apply edit_fields_in in Hin.
  destruct Hin as (Hreq & _ & Hne). unfold GlesysRunner.differs.
  rewrite pyval_eqb_sym in Hne.
  unfold GlesysRunner.edit_request in Hreq. cbn [In] in Hreq.
  repeat (destruct Hreq as [Hreq | Hreq];
          [ inversion Hreq; subst k v; clear Hreq | ]);
    try contradiction; cbn [snapshot_get] in Hne; rewrite Hne;
    cbn [negb orb andb]; rewrite ?orb_true_r; try reflexivity.
  destruct Hk as [Hk | Hk]; [ congruence | ].
  rewrite Hk. cbn [String.eqb Ascii.eqb Bool.eqb andb].
  now rewrite orb_true_r.
Qed.

Lemma differs_whenever_sendable_witness :
  GlesysRunner.differs
    (properties (AnsibleGlesysServer.init Cloud.web1))
    (Cloud.task (Some "wps1") None None None (Some 40) (Some 100) "present")
  = true.
Proof.
  apply (differs_whenever_sendable (AnsibleGlesysServer.init Cloud.web1)
           (Cloud.task (Some "wps1") None None None (Some 40) (Some 100)
                       "present")
           Disksize (PInt 40)).
  - simpl. tauto.
  - left. discriminate.
Defined.

(** ** The generated password, byte by byte *)

(** X16: [c % len(chars)] has no modulo bias.  Each of the 32 characters
    of the alphabet is what exactly 8 of the 256 byte values turn into, and
    no byte value turns into any other character. *)
Theorem password_characters_are_unbiased (c : ascii) :
  preimages c = if unambiguous c then 8%nat else 0%nat.
Proof.
  destruct c as [[] [] [] [] [] [] [] []]; vm_compute; reflexivity.
Qed.

(** ** The URL of a query *)

Lemma append_assoc (a b c : string) : ((a ++ b) ++ c = a ++ b ++ c)%string.
Proof. induction a as [ | x a IH]; simpl; [ reflexivity | now rewrite IH ]. Qed.

Lemma query_fold_filter (data : list (string * option string)) :
  forall url,
    fold_left
      (fun url kv =>
         match snd kv with
         | Some v => url ++ "/" ++ fst kv ++ "/" ++ v
         | None => url
         end) data url
    = fold_left
        (fun url kv =>
           match snd kv with
           | Some v => url ++ "/" ++ fst kv ++ "/" ++ v
           | None => url
           end)
        (filter (fun kv => match snd kv with Some _ => true | None => false end)
                data) url.
Proof.
  induction data as [ | [k [v | ]] data IH]; intros url; simpl;
    [ reflexivity | apply IH | apply IH ].
Qed.

(** X17: a parameter whose value is [None] leaves no trace in the URL of
    a query: the URL is the one built from the other parameters alone. *)
Theorem query_url_skips_none (module func : string)
        (data : list (string * option string)) :
  Wire.query_url module func data
  = Wire.query_url module func
      (filter (fun kv => match snd kv with Some _ => true | None => false end)
              data).
Proof. unfold Wire.query_url. apply query_fold_filter. Qed.

(** X18: [query] puts keys and values into the path as they are, without
    escaping.  A value that contains slashes yields the very URL of a query
    with one more parameter. *)
Theorem query_url_does_not_escape (module func : string)
        (before after : list (string * option string))
        (k v k' v' : string) :
  Wire.query_url module func
    (before ++ (k, Some (v ++ "/" ++ k' ++ "/" ++ v')) :: after)
  = Wire.query_url module func
      (before ++ (k, Some v) :: (k', Some v') :: after).
Proof.
  unfold Wire.query_url. rewrite !fold_left_app. cbn [fold_left fst snd].
  f_equal. now rewrite !append_assoc.
Qed.

(** ** Parsed responses *)

(** X19: a response with a status below 400 and an empty body is parsed
    to the empty object, without consulting the JSON parser; reading the
    state, the server or the server list out of it raises
    [KeyError('response')]. *)
Theorem empty_body_raises_key_error
        (from_json : string -> option Wire.json) (i : Wire.info) :
  Wire.status i < 400 ->
  Wire.parse_response from_json i "" = Wire.Value (Wire.JObj [])
  /\ Wire.read from_json Wire.server_state i "" = Wire.KeyError "response"
  /\ Wire.read from_json Wire.server_object i "" = Wire.KeyError "response"
  /\ Wire.read from_json Wire.server_list i "" = Wire.KeyError "response".
Proof.
  intros H. unfold Wire.read, Wire.parse_response.
  destruct (Z.geb_spec (Wire.status i) 400); [ lia | ].
  repeat split.
Qed.

Lemma empty_body_raises_key_error_witness :
  Wire.read (fun _ => None) Wire.server_state
            {| Wire.status := 204; Wire.body := "" |} ""
  = Wire.KeyError "response".
Proof.
  apply (empty_body_raises_key_error (fun _ => None)
           {| Wire.status := 204; Wire.body := "" |}).
  reflexivity.
Defined.

(** X20: a response with status 400 or above never yields a value and
    the response body is not looked at.  When the error body is no JSON the
    parser's error escapes; otherwise it ends in [fail_json] with
    [response.status.text], or in [KeyError] or [TypeError] when the error
    body lacks that path.  An accessor applied to the result is never
    reached. *)
Theorem error_status_never_yields_a_value
        (from_json : string -> option Wire.json)
        (access : Wire.json -> Wire.result Wire.json)
        (i : Wire.info) (res : string) :
  400 <= Wire.status i ->
  (forall v, Wire.parse_response from_json i res <> Wire.Value v)
  /\ (forall v, Wire.read from_json access i res <> Wire.Value v)
  /\ Wire.read from_json access i res = Wire.parse_response from_json i res
  /\ Wire.parse_response from_json i res
     = match from_json (Wire.body i) with
       | None => Wire.JSONDecodeError
       | Some error =>
           match Wire.path error ["response"; "status"; "text"] with
           | Wire.Value text => Wire.FailJson text
           | other => other
           end
       end.
Proof.
  intros H. unfold Wire.read, Wire.parse_response.
  destruct (Z.geb_spec (Wire.status i) 400); [ | lia ].
  destruct (from_json (Wire.body i)) as [error | ].
  - destruct (Wire.path error _); repeat split; intros v; discriminate.
  - repeat split; intros v; discriminate.
Qed.

Lemma error_status_never_yields_a_value_witness :
  Wire.read (fun _ => None) Wire.server_state
            {| Wire.status := 502; Wire.body := "<html>Bad Gateway</html>" |}
            "<html>Bad Gateway</html>"
  = Wire.JSONDecodeError.
Proof.
  destruct (error_status_never_yields_a_value (fun _ => None)
              Wire.server_state
              {| Wire.status := 502;
                 Wire.body := "<html>Bad Gateway</html>" |}
              "<html>Bad Gateway</html>" ltac:(simpl; lia))
    as (_ & _ & Hread & Hparse).
  exact (eq_trans Hread Hparse).
Defined.

(** ** [set_power_state] *)

(** X21: [set_power_state] answers [False] exactly when the current
    state is the target state, and then it calls nothing, also for a
    target the transition table does not know. *)
Theorem set_power_state_unchanged_iff_equal {W}
        (post : string -> string -> W -> reply unit * W)
        (serverid current target : string) (w : W) :
  (fst (Power.set_power_state post serverid current target w)
   = Power.Return false <-> current = target)
  /\ Power.set_power_state post serverid target target w
     = (Power.Return false, w).
Proof.
  unfold Power.set_power_state. rewrite String.eqb_refl.
  split; [ | reflexivity ].
  destruct (String.eqb_spec current target) as [E | N]; [ tauto | ].
  split; [ | contradiction ].
  destruct (Power.transition target) as [[] | ]; simpl;
    try discriminate;
    destruct (post _ serverid w) as [[u | t] w']; discriminate.
Qed.

(** For the target [present], [set_power_state] calls nothing, and
    still answers [True] whenever the current state is not the word
    [present]. *)
Lemma set_power_state_present_calls_nothing {W}
        (post : string -> string -> W -> reply unit * W)
        (serverid current : string) (w : W) :
  Power.set_power_state post serverid current "present" w
  = (Power.Return (negb (current =? "present")%string), w).
Proof.
  unfold Power.set_power_state.
  destruct (current =? "present")%string; reflexivity.
Qed.

(** X22: for a target outside [present], [running], [stopped] and
    [rebooted] that differs from the current state, [set_power_state]
    raises [KeyError] and calls nothing. *)
Theorem set_power_state_unknown_target {W}
        (post : string -> string -> W -> reply unit * W)
        (serverid current target : string) (w : W) :
  current <> target ->
  ~ In target ["present"; "running"; "stopped"; "rebooted"] ->
  Power.set_power_state post serverid current target w
  = (Power.KeyError target, w).
Proof.
  intros N Hout. unfold Power.set_power_state, Power.transition.
  destruct (String.eqb_spec current target); [ contradiction | ].
  destruct (String.eqb_spec target "present") as [-> | _];
    [ exfalso; apply Hout; simpl; tauto | ].
  destruct (String.eqb_spec target "running") as [-> | _];
    [ exfalso; apply Hout; simpl; tauto | ].
  destruct (String.eqb_spec target "stopped") as [-> | _];
    [ exfalso; apply Hout; simpl; tauto | ].
  destruct (String.eqb_spec target "rebooted") as [-> | _];
    [ exfalso; apply Hout; simpl; tauto | ].
  reflexivity.
Qed.

Lemma set_power_state_unknown_target_witness :
  Power.set_power_state (fun _ _ (w : unit) => (Ok tt, w))
                        "wps1" "running" "absent" tt
  = (Power.KeyError "absent", tt).
Proof.
  apply (set_power_state_unknown_target (fun _ _ (w : unit) => (Ok tt, w))
           "wps1" "running" "absent" tt).
  - discriminate.
  - simpl. intros [H | [H | [H | [H | []]]]]; discriminate.
Defined.

(** ** An update that has something to send *)

(** X23: when the condition holds and a field is left to send,
    [update_server] fetches the details, posts one edit with exactly those
    fields and the server id, refreshes the server it got back, waits for
    the lock if [wait] is set, and answers [changed=True] with the
    refreshed server.  It does not wait for the lock before the edit. *)
Theorem update_server_posts_and_refreshes {W} (api : Provider W)
        (fuel : nat) (m : module) (srv : server) (c : bool) (s : st W)
        (details json refreshed : snapshot) (kv : field * pyval)
        (fields : dict) (locks : list string) (w1 w2 w3 w4 : W) :
  let p := m_params m in
  let serverid := AnsibleGlesysServer.serverid srv in
  let sent := dict_set (kv :: fields) Serverid (PStr serverid) in
  srv_details api serverid (cloud s) = (Ok details, w1) ->
  GlesysRunner.differs details p = true ->
  GlesysApi.edit_fields srv (GlesysRunner.edit_request p) = kv :: fields ->
  srv_edit api sent w1 = (Ok json, w2) ->
  srv_details api (sv_serverid json) w2 = (Ok refreshed, w3) ->
  (if p_wait p
   then answers api (sv_serverid refreshed) locks w3 = Some w4
        /\ waits_for unlocked locks = true
        /\ (List.length locks <= S fuel)%nat
   else w4 = w3) ->
  GlesysRunner.update_server api fuel m srv c s
  = (Ret (true, {| properties := refreshed; ipaddress := None |}),
     extend s w4
       ([EvDetails serverid; EvEdit sent; EvDetails (sv_serverid json)]
          ++ (if p_wait p then lock_trace (sv_serverid refreshed) locks
              else []))%list).
Proof.
  intros p serverid sent Hd Hdiff Hfields Hedit Hrefresh Hwait.
  unfold GlesysRunner.update_server, GlesysApi.get_server_details.
  fold p. fold serverid.
  mret (request_ok (fun _ => EvDetails serverid) _ s details w1 Hd).
  rewrite Hdiff. unfold GlesysApi.update_server. fold serverid.
  rewrite Hfields. cbn [Datatypes.length]. rewrite Nat2Z.inj_succ.
  destruct (Z.eqb_spec (Z.succ (Z.of_nat (Datatypes.length fields))) 0);
    [ lia | ].
  fold sent. rewrite !bind_assoc.
  on_state ltac:(fun s0 =>
    mret (request_ok (fun _ => EvEdit sent) (srv_edit api sent) s0 json w2
            Hedit)).
  rewrite extend_extend, bind_ret_l. cbv beta iota.
  unfold AnsibleGlesysServer.update. rewrite !bind_assoc.
  cbn [AnsibleGlesysServer.serverid AnsibleGlesysServer.init properties
       ipaddress].
  on_state ltac:(fun s0 =>
    mret (request_ok (fun _ => EvDetails (sv_serverid json))
            (srv_details api (sv_serverid json)) s0 refreshed w3 Hrefresh)).
  rewrite extend_extend, bind_ret_l.
  cbn [AnsibleGlesysServer.serverid properties].
  destruct (p_wait p).
  - destruct Hwait as (Ha & Hw & Hf).
    on_state ltac:(fun s0 =>
      mret (wait_for_server_lock_spec api (sv_serverid refreshed) locks fuel
              s0 w4 Hw Ha Hf)).
    rewrite extend_extend. unfold ret. now rewrite <- !app_assoc.
  - subst w4. rewrite bind_ret_l. unfold ret.
    now rewrite <- !app_assoc, app_nil_r.
Qed.

Lemma update_server_posts_and_refreshes_witness :
  exists refreshed w,
    GlesysRunner.update_server Cloud.provider 3
      {| m_params := Cloud.task (Some "wps1") None None None (Some 40)
                       (Some 100) "present";
         check_mode := false |}
      (AnsibleGlesysServer.init Cloud.web1) false (Cloud.boot Cloud.one)
    = (Ret (true, {| properties := refreshed; ipaddress := None |}),
       extend (Cloud.boot Cloud.one) w
         [EvDetails "wps1";
          EvEdit [(Disksize, PInt 40); (Serverid, PStr "wps1")];
          EvDetails "wps1";
          EvStatus "wps1" (Ok "locked"); EvSleep 1;
          EvStatus "wps1" (Ok "running")])
    /\ sv_disksize refreshed = 40.
Proof.
  eexists. eexists. split.
  - apply (update_server_posts_and_refreshes Cloud.provider 3
             {| m_params := Cloud.task (Some "wps1") None None None (Some 40)
                              (Some 100) "present";
                check_mode := false |}
             (AnsibleGlesysServer.init Cloud.web1) false
             (Cloud.boot Cloud.one) Cloud.web1
             (Cloud.set_field Cloud.web1 (Disksize, PInt 40))
             (Cloud.set_field Cloud.web1 (Disksize, PInt 40))
             (Disksize, PInt 40) [] ["locked"; "running"]
             Cloud.one
             {| Cloud.servers :=
                  [Cloud.set_field Cloud.web1 (Disksize, PInt 40)];
                Cloud.busy := ["locked"] |}
             {| Cloud.servers :=
                  [Cloud.set_field Cloud.web1 (Disksize, PInt 40)];
                Cloud.busy := ["locked"] |}
             {| Cloud.servers :=
                  [Cloud.set_field Cloud.web1 (Disksize, PInt 40)];
                Cloud.busy := [] |});
      try reflexivity.
    split; [ reflexivity | split; [ reflexivity | simpl; lia ] ].
  - reflexivity.
Defined.
